(** * MoneyPrinterV2: the JSON cache of [src/cache_fixed.py]

    A shallow embedding of the cache module and the properties of its
    record store.  The Python functions are translated one by one and keep
    their names; the file system and the exceptions they go through are
    explicit: a computation takes a [world] and gives back a result (a
    value or a raised exception) and the next [world].  Paths follow
    [posixpath]; what the module prints is left out. *)

From Stdlib Require Import ZArith Lia Ascii String.
From stdpp Require Import base option list strings gmap.

Set Warnings "-register-all".
Local Open Scope string_scope.
Local Open Scope Z_scope.

(** ** Python values *)

(** What [json.load] can return, and what the callers pass as records:
    [None], booleans, integers, strings, lists and dictionaries with string
    keys.  A dictionary keeps its keys in insertion order, as Python does.
    Floating-point numbers are not part of the model. *)
Inductive json : Type :=
| JNull
| JBool (b : bool)
| JNum (n : Z)
| JStr (s : string)
| JArr (xs : list json)
| JObj (kvs : list (string * json)).

Abbreviation pydict := (list (string * json)).

(** [d.get(k)] without a default is [dict_get d k] with [None] read as
    Python's [None]; [k in d] is [dict_has]. *)
Fixpoint dict_get (d : pydict) (k : string) : option json :=
  match d with
  | [] => None
  | (k', v) :: d' => if String.eqb k' k then Some v else dict_get d' k
  end.

Definition dict_has (d : pydict) (k : string) : bool :=
  match dict_get d k with Some _ => true | None => false end.

(** [d[k] = v]: an existing key keeps its place, a new key goes last. *)
Fixpoint dict_set (d : pydict) (k : string) (v : json) : pydict :=
  match d with
  | [] => [(k, v)]
  | (k', v') :: d' =>
      if String.eqb k' k then (k', v) :: d' else (k', v') :: dict_set d' k v
  end.

(** [d.update(u)]: the items of [u] are stored one after the other. *)
Definition dict_update (d u : pydict) : pydict :=
  fold_left (fun acc kv => dict_set acc (fst kv) (snd kv)) u d.

(** Python's [==] on these values.  [True == 1] and [False == 0] hold,
    lists are compared element by element, dictionaries by size and by
    the value under each key. *)
Fixpoint py_eq (a b : json) {struct a} : bool :=
  match a, b with
  | JNull, JNull => true
  | JBool x, JBool y => Bool.eqb x y
  | JBool x, JNum n => Z.eqb (if x then 1 else 0) n
  | JNum n, JBool x => Z.eqb n (if x then 1 else 0)
  | JNum m, JNum n => Z.eqb m n
  | JStr s, JStr t => String.eqb s t
  | JArr xs, JArr ys =>
      (fix all2 (xs ys : list json) {struct xs} : bool :=
         match xs, ys with
         | [], [] => true
         | x :: xs', y :: ys' => py_eq x y && all2 xs' ys'
         | _, _ => false
         end) xs ys
  | JObj d, JObj e =>
      Nat.eqb (length d) (length e) &&
      (fix items (d : pydict) {struct d} : bool :=
         match d with
         | [] => true
         | (k, v) :: d' =>
             match dict_get e k with
             | Some v' => py_eq v v'
             | None => false
             end && items d'
         end) d
  | _, _ => false
  end.

(** [x in xs] on a list: some element is equal to [x]. *)
Definition py_in (x : json) (xs : list json) : bool :=
  existsb (fun e => py_eq x e) xs.

(** ** Exceptions and results *)

Inductive exn : Type :=
| ValueError
| TypeError
| AttributeError
| OSError
| FileNotFoundError
| FileExistsError
| JSONDecodeError.

Inductive result (A : Type) : Type :=
| Ok (a : A)
| Raise (e : exn).
Arguments Ok {A} a.
Arguments Raise {A} e.

(** ** The file system *)

(** The text of a file is kept as what [json.load] makes of it: [Doc j] is
    a text that parses to [j], which is also what [json.dump] writes for
    [j]; [Garbage s] is a text that does not parse (the empty file that
    [open(path, 'w')] leaves is [Garbage ""]). *)
Inductive content : Type :=
| Doc (j : json)
| Garbage (s : string).

(** [files] are the regular files and [dirs] the directories, by path.
    [faults] is the fate of the next system calls: each call that can fail
    at the file-system boundary takes the head of the list and fails when
    it is [true]; with no entry left the call goes through.  [trace] lists
    the paths handed to the system calls so far. *)
Record world : Type := World {
  files : gmap string content;
  dirs : gset string;
  faults : list bool;
  trace : list string
}.

(** ** Computations *)

Definition M (A : Type) : Type := world -> result A * world.

Definition ret {A} (a : A) : M A := fun w => (Ok a, w).

Definition raise {A} (e : exn) : M A := fun w => (Raise e, w).

Definition bind {A B} (m : M A) (k : A -> M B) : M B :=
  fun w =>
    match m w with
    | (Ok a, w') => k a w'
    | (Raise e, w') => (Raise e, w')
    end.

(** [try: m except Exception as e: h e] *)
Definition try_except {A} (m : M A) (h : exn -> M A) : M A :=
  fun w =>
    match m w with
    | (Ok a, w') => (Ok a, w')
    | (Raise e, w') => h e w'
    end.

(** A pure step that may raise. *)
Definition lift {A} (r : result A) : M A := fun w => (r, w).

Declare Scope py_scope.
Delimit Scope py_scope with py.
Notation "x <- m ;; k" := (bind m (fun x => k))
  (at level 100, m at next level, right associativity) : py_scope.
Notation "m ;; k" := (bind m (fun _ => k))
  (at level 100, right associativity) : py_scope.
Local Open Scope py_scope.

Definition run {A} (m : M A) (w : world) : result A := fst (m w).
Definition exec {A} (m : M A) (w : world) : world := snd (m w).

(** *** System calls *)

Definition touch (p : string) : M unit :=
  fun w => (Ok tt, World (files w) (dirs w) (faults w) (trace w ++ [p])).

Definition next_fault : M bool :=
  fun w =>
    match faults w with
    | [] => (Ok false, w)
    | b :: bs => (Ok b, World (files w) (dirs w) bs (trace w))
    end.

Definition get_files : M (gmap string content) := fun w => (Ok (files w), w).
Definition get_dirs : M (gset string) := fun w => (Ok (dirs w), w).
Definition put_files (fs : gmap string content) : M unit :=
  fun w => (Ok tt, World fs (dirs w) (faults w) (trace w)).
Definition put_dirs (ds : gset string) : M unit :=
  fun w => (Ok tt, World (files w) ds (faults w) (trace w)).

Definition is_file (fs : gmap string content) (p : string) : bool :=
  match fs !! p with Some _ => true | None => false end.

Definition is_dir (ds : gset string) (p : string) : bool :=
  bool_decide (p ∈ ds).

(** [os.path.exists(p)]: never raises. *)
Definition os_path_exists (p : string) : M bool :=
  touch p ;;
  fs <- get_files ;;
  ds <- get_dirs ;;
  ret (is_file fs p || is_dir ds p).

(** [os.makedirs(p)] *)
Definition os_makedirs (p : string) : M unit :=
  touch p ;;
  f <- next_fault ;;
  if f then raise OSError else
  fs <- get_files ;;
  ds <- get_dirs ;;
  if is_file fs p || is_dir ds p then raise FileExistsError
  else put_dirs ({[p]} ∪ ds).

(** [open(p, 'w')]: the file is created, or emptied when it exists. *)
Definition open_w (p : string) : M unit :=
  touch p ;;
  f <- next_fault ;;
  if f then raise OSError else
  fs <- get_files ;;
  ds <- get_dirs ;;
  if is_dir ds p then raise OSError
  else put_files (<[p := Garbage ""]> fs).

(** [json.dump(data, file)] on the file opened at [p], up to the end of
    the [with] block.  A failure leaves an incomplete text. *)
Definition json_dump (p : string) (data : json) : M unit :=
  f <- next_fault ;;
  if f then raise OSError else
  fs <- get_files ;;
  put_files (<[p := Doc data]> fs).

(** [open(p, 'r')]: gives the text of the file. *)
Definition open_r (p : string) : M content :=
  touch p ;;
  f <- next_fault ;;
  if f then raise OSError else
  fs <- get_files ;;
  match fs !! p with
  | Some c => ret c
  | None => raise FileNotFoundError
  end.

(** [json.load(file)] *)
Definition json_load (c : content) : M json :=
  f <- next_fault ;;
  if f then raise OSError else
  match c with
  | Doc j => ret j
  | Garbage _ => raise JSONDecodeError
  end.

(** [os.remove(p)] *)
Definition os_remove (p : string) : M unit :=
  touch p ;;
  f <- next_fault ;;
  if f then raise OSError else
  fs <- get_files ;;
  match fs !! p with
  | Some _ => put_files (delete p fs)
  | None => raise FileNotFoundError
  end.

(** [os.rename(src, dst)] *)
Definition os_rename (src dst : string) : M unit :=
  touch src ;;
  touch dst ;;
  f <- next_fault ;;
  if f then raise OSError else
  fs <- get_files ;;
  ds <- get_dirs ;;
  match fs !! src with
  | Some c =>
      if is_dir ds dst then raise OSError
      else put_files (<[dst := c]> (delete src fs))
  | None => raise FileNotFoundError
  end.

(** *** Paths ([posixpath]) *)

Definition ends_with_sep (a : string) : bool :=
  match rev (String.list_ascii_of_string a) with
  | c :: _ => Ascii.eqb c "/"%char
  | [] => false
  end.

(** [os.path.join(a, b)] *)
Definition os_path_join (a b : string) : string :=
  if String.prefix "/" b then b
  else if String.eqb a "" || ends_with_sep a then a +:+ b
  else a +:+ "/" +:+ b.

Fixpoint drop_while {A} (f : A -> bool) (l : list A) : list A :=
  match l with
  | [] => []
  | x :: l' => if f x then drop_while f l' else l
  end.

Definition is_sep (c : ascii) : bool := Ascii.eqb c "/"%char.

(** [os.path.dirname(p)]: the text up to the last separator, without the
    separators it ends with, unless it consists of separators only. *)
Definition os_path_dirname (p : string) : string :=
  let head := drop_while (fun c => negb (is_sep c)) (rev (String.list_ascii_of_string p)) in
  if forallb is_sep head then String.string_of_list_ascii (rev head)
  else String.string_of_list_ascii (rev (drop_while is_sep head)).

(** *** Operations on values that may raise *)

Definition rbind {A B} (r : result A) (k : A -> result B) : result B :=
  match r with
  | Ok a => k a
  | Raise e => Raise e
  end.

(** [for x in v]: the elements of a list, the characters of a string, the
    keys of a dictionary; other values are not iterable. *)
Definition py_iter (v : json) : result (list json) :=
  match v with
  | JArr xs => Ok xs
  | JStr s => Ok (map (fun c => JStr (String c "")) (String.list_ascii_of_string s))
  | JObj d => Ok (map (fun kv => JStr (fst kv)) d)
  | _ => Raise TypeError
  end.

(** [len(v)] *)
Definition py_len (v : json) : result nat :=
  match v with
  | JArr xs => Ok (length xs)
  | JStr s => Ok (String.length s)
  | JObj d => Ok (length d)
  | _ => Raise TypeError
  end.

(** [v.get(k)]: only a dictionary has the method; a missing key gives
    [None]. *)
Definition py_get (v : json) (k : string) : result json :=
  match v with
  | JObj d => Ok (default JNull (dict_get d k))
  | _ => Raise AttributeError
  end.

(** [v.append(x)]: only a list has the method. *)
Definition py_append (v x : json) : result json :=
  match v with
  | JArr xs => Ok (JArr (xs ++ [x]))
  | _ => Raise AttributeError
  end.

(** [[f(x) for x in xs]] *)
Fixpoint comprehension {A} (f : json -> result A) (xs : list json) : result (list A) :=
  match xs with
  | [] => Ok []
  | x :: xs' =>
      rbind (f x) (fun y =>
      rbind (comprehension f xs') (fun ys => Ok (y :: ys)))
  end.

(** [[x for x in xs if f(x)]] *)
Fixpoint comprehension_if (f : json -> result bool) (xs : list json) : result (list json) :=
  match xs with
  | [] => Ok []
  | x :: xs' =>
      rbind (f x) (fun keep =>
      rbind (comprehension_if f xs') (fun ys =>
      Ok (if keep then x :: ys else ys)))
  end.

(** The loop of [update_account]:

      for account in accounts:
          if account.get('id') == account_id:
              account.update(updates); account_found = True; break

    It gives [account_found] and the elements after the loop: the
    dictionary that matched is changed in place. *)
Fixpoint update_loop (account_id : string) (updates : pydict) (xs : list json)
    : result (bool * list json) :=
  match xs with
  | [] => Ok (false, [])
  | account :: rest =>
      rbind (py_get account "id") (fun v =>
      if py_eq v (JStr account_id) then
        match account with
        | JObj d => Ok (true, JObj (dict_update d updates) :: rest)
        | _ => Raise AttributeError
        end
      else
        rbind (update_loop account_id updates rest) (fun r =>
        Ok (fst r, account :: snd r)))
  end.

(** ** The cache module *)

Section Cache.

(** [config.ROOT_DIR] *)
Variable ROOT_DIR : string.

Definition get_cache_path : string := os_path_join ROOT_DIR ".mp".

Definition get_afm_cache_path : string := os_path_join get_cache_path "afm.json".

Definition get_twitter_cache_path : string := os_path_join get_cache_path "twitter.json".

Definition get_youtube_cache_path : string := os_path_join get_cache_path "youtube.json".

Definition _ensure_cache_file_exists (cache_path : string) (default_structure : pydict)
    : M unit :=
  e <- os_path_exists cache_path ;;
  if negb e then
    let cache_dir := os_path_dirname cache_path in
    d <- os_path_exists cache_dir ;;
    (if negb d then os_makedirs cache_dir else ret tt) ;;
    open_w cache_path ;;
    json_dump cache_path (JObj default_structure)
  else ret tt.

Definition _read_cache_file (cache_path : string) (default_structure : pydict)
    : M pydict :=
  _ensure_cache_file_exists cache_path default_structure ;;
  try_except
    (file <- open_r cache_path ;;
     data <- json_load file ;;
     match data with
     | JObj d => ret d
     | _ => ret default_structure
     end)
    (fun _ => ret default_structure).

Definition _write_cache_file (cache_path : string) (data : pydict) : M bool :=
  let temp_path := cache_path +:+ ".tmp" in
  try_except
    (open_w temp_path ;;
     json_dump temp_path (JObj data) ;;
     e <- os_path_exists cache_path ;;
     (if e then os_remove cache_path else ret tt) ;;
     os_rename temp_path cache_path ;;
     ret true)
    (fun _ =>
     e <- os_path_exists temp_path ;;
     (if e then try_except (os_remove temp_path) (fun _ => ret tt) else ret tt) ;;
     ret false).

(** [provider in ["twitter", "youtube"]] *)
Definition is_account_provider (provider : string) : bool :=
  String.eqb provider "twitter" || String.eqb provider "youtube".

Definition account_cache_path (provider : string) : string :=
  if String.eqb provider "twitter" then get_twitter_cache_path
  else get_youtube_cache_path.

Definition get_accounts (provider : string) : M json :=
  if negb (is_account_provider provider) then raise ValueError else
  let cache_path := account_cache_path provider in
  let default_structure := [("accounts", JArr [])] in
  data <- _read_cache_file cache_path default_structure ;;
  ret (default (JArr []) (dict_get data "accounts")).

Definition add_account (provider : string) (account : json) : M bool :=
  if negb (is_account_provider provider) then raise ValueError else
  match account with
  | JObj acct =>
      if negb (dict_has acct "id") then raise ValueError else
      let cache_path := account_cache_path provider in
      let default_structure := [("accounts", JArr [])] in
      data <- _read_cache_file cache_path default_structure ;;
      let accounts := default (JArr []) (dict_get data "accounts") in
      items <- lift (py_iter accounts) ;;
      existing_ids <- lift (comprehension (fun acc => py_get acc "id") items) ;;
      if py_in (default JNull (dict_get acct "id")) existing_ids then ret false else
      accounts <- lift (py_append accounts account) ;;
      let data := dict_set data "accounts" accounts in
      _write_cache_file cache_path data
  | _ => raise ValueError
  end.

Definition remove_account (provider : string) (account_id : string) : M bool :=
  if negb (is_account_provider provider) then raise ValueError else
  let cache_path := account_cache_path provider in
  let default_structure := [("accounts", JArr [])] in
  data <- _read_cache_file cache_path default_structure ;;
  let accounts := default (JArr []) (dict_get data "accounts") in
  original_count <- lift (py_len accounts) ;;
  items <- lift (py_iter accounts) ;;
  accounts <- lift (comprehension_if
    (fun account => rbind (py_get account "id") (fun v =>
                    Ok (negb (py_eq v (JStr account_id))))) items) ;;
  if Nat.eqb (length accounts) original_count then ret false else
  let data := dict_set data "accounts" (JArr accounts) in
  _write_cache_file cache_path data.

Definition update_account (provider : string) (account_id : string)
    (updates : pydict) : M bool :=
  if negb (is_account_provider provider) then raise ValueError else
  let cache_path := account_cache_path provider in
  let default_structure := [("accounts", JArr [])] in
  data <- _read_cache_file cache_path default_structure ;;
  let accounts := default (JArr []) (dict_get data "accounts") in
  items <- lift (py_iter accounts) ;;
  r <- lift (update_loop account_id updates items) ;;
  let account_found := fst r in
  let accounts := match accounts with JArr _ => JArr (snd r) | _ => accounts end in
  if negb account_found then ret false else
  let data := dict_set data "accounts" accounts in
  _write_cache_file cache_path data.

Definition get_products : M json :=
  let cache_path := get_afm_cache_path in
  let default_structure := [("products", JArr [])] in
  data <- _read_cache_file cache_path default_structure ;;
  ret (default (JArr []) (dict_get data "products")).

Definition add_product (product : json) : M bool :=
  match product with
  | JObj prod =>
      if negb (dict_has prod "id") then raise ValueError else
      let cache_path := get_afm_cache_path in
      let default_structure := [("products", JArr [])] in
      data <- _read_cache_file cache_path default_structure ;;
      let products := default (JArr []) (dict_get data "products") in
      items <- lift (py_iter products) ;;
      existing_ids <- lift (comprehension (fun p => py_get p "id") items) ;;
      if py_in (default JNull (dict_get prod "id")) existing_ids then ret false else
      products <- lift (py_append products product) ;;
      let data := dict_set data "products" products in
      _write_cache_file cache_path data
  | _ => raise ValueError
  end.

Definition get_results_cache_path : string :=
  os_path_join get_cache_path "scraper_results.csv".

Definition remove_if_exists (cache_path : string) : M unit :=
  e <- os_path_exists cache_path ;;
  if e then os_remove cache_path else ret tt.

Definition clear_cache (provider : option string) : M bool :=
  let selected (name : string) :=
    match provider with
    | Some p => String.eqb p name
    | None => true
    end in
  try_except
    ((if selected "twitter" then remove_if_exists get_twitter_cache_path else ret tt) ;;
     (if selected "youtube" then remove_if_exists get_youtube_cache_path else ret tt) ;;
     (if selected "afm" then remove_if_exists get_afm_cache_path else ret tt) ;;
     ret true)
    (fun _ => ret false).

End Cache.

(** ** Vocabulary of the statements *)

(** [r.get('id')] for a record [r]. *)
Definition id_of (r : pydict) : json := default JNull (dict_get r "id").

(** [r.get('id') == account_id] *)
Definition has_id (account_id : string) (r : pydict) : bool :=
  py_eq (id_of r) (JStr account_id).

(** The dictionary that a read takes from the text of a document: the
    parsed object, or the default structure for a missing file, a text that
    does not parse, or a value that is not an object. *)
Definition doc_dict (c : option content) (default_structure : pydict) : pydict :=
  match c with
  | Some (Doc (JObj d)) => d
  | _ => default_structure
  end.

(** What [list] gives for the text of a document: the value under the
    array field, or the empty list. *)
Definition stored (c : option content) (field : string) : json :=
  default (JArr []) (dict_get (doc_dict c [(field, JArr [])]) field).

(** A document holds a collection when the array field, if there is one,
    is a list of objects. *)
Definition is_obj (v : json) : bool :=
  match v with JObj _ => true | _ => false end.

Definition holds_collection (c : option content) (field : string) : bool :=
  match c with
  | Some (Doc (JObj d)) =>
      match dict_get d field with
      | None => true
      | Some (JArr xs) => forallb is_obj xs
      | Some _ => false
      end
  | _ => true
  end.

(** [os.path.exists(p)] as a function of the world. *)
Definition exists_at (w : world) (p : string) : bool :=
  is_file (files w) p || is_dir (dirs w) p.

(** No system call fails, and no directory sits where the document or its
    temporary file go. *)
Definition calm (w : world) (cache_path : string) : Prop :=
  faults w = [] /\
  is_dir (dirs w) cache_path = false /\
  is_dir (dirs w) (cache_path +:+ ".tmp") = false.

(** The three documents of the store. *)
Definition documents (ROOT_DIR : string) : list string :=
  [get_twitter_cache_path ROOT_DIR; get_youtube_cache_path ROOT_DIR;
   get_afm_cache_path ROOT_DIR].

(** The paths that an operation on the document [cache_path] hands to the
    system: the document, its temporary file and its directory. *)
Definition footprint (cache_path : string) : list string :=
  [cache_path; cache_path +:+ ".tmp"; os_path_dirname cache_path].

(** [w'] comes from [w] by system calls on the paths [ps] only: the files
    at other paths are the same, and the trace grew by paths of [ps]. *)
Definition only_touches (ps : list string) (w w' : world) : Prop :=
  (forall q, q ∉ ps -> files w' !! q = files w !! q) /\
  (exists t : list string, trace w' = (trace w ++ t)%list /\ forall q, q ∈ t -> q ∈ ps).

(** The documents that [clear_cache] is asked to delete. *)
Definition cleared (ROOT_DIR : string) (provider : option string) : list string :=
  match provider with
  | None => documents ROOT_DIR
  | Some p =>
      if String.eqb p "twitter" then [get_twitter_cache_path ROOT_DIR]
      else if String.eqb p "youtube" then [get_youtube_cache_path ROOT_DIR]
      else if String.eqb p "afm" then [get_afm_cache_path ROOT_DIR]
      else []
  end.

(** What [os.path.join] puts before the name of a document. *)
Definition cache_prefix (ROOT_DIR : string) : string :=
  let c := get_cache_path ROOT_DIR in
  if String.eqb c "" || ends_with_sep c then c else c +:+ "/".

(** A path that is longer than its directory, as the paths of documents
    are. *)
Definition proper_path (p : string) : Prop :=
  (String.length (os_path_dirname p) < String.length p)%nat.

(** Every run of [m] relates the world before to the world after. *)
Definition preserves {A} (R : relation world) (m : M A) : Prop :=
  forall w, R w (exec m w).

(** The identifiers of a collection are pairwise distinct. *)
Definition distinct_ids (recs : list pydict) : Prop := NoDup (id_of <$> recs).

(** The first record that satisfies [matches] with [updates] merged in. *)
Fixpoint patch_first (matches : pydict -> bool) (updates : pydict)
    (recs : list pydict) : list pydict :=
  match recs with
  | [] => []
  | r :: rest =>
      if matches r then dict_update r updates :: rest
      else r :: patch_first matches updates rest
  end.

(** A text from which a read takes nothing: it does not parse, or parses
    to a value that is not an object. *)
Definition unreadable (c : content) : bool :=
  match c with Doc (JObj _) => false | _ => true end.

(** The record is a dictionary with an [id] key. *)
Definition record_has_id (v : json) : bool :=
  match v with JObj d => dict_has d "id" | _ => false end.

(** [w'] comes from [w] without using up a fault that [w] does not have,
    and with no new directory but the one of [cache_path]. *)
Definition settles (cache_path : string) (w w' : world) : Prop :=
  (faults w = [] -> faults w' = []) /\
  (forall q, is_dir (dirs w') q = true ->
     q = os_path_dirname cache_path \/ is_dir (dirs w) q = true).

(** The loop of [test_multiple_accounts_persist]:

      for acc in accounts_to_add:
          add_account("youtube", acc) *)
Fixpoint add_each (ROOT_DIR provider : string) (accounts_to_add : list json)
    : M unit :=
  match accounts_to_add with
  | [] => ret tt
  | acc :: rest =>
      add_account ROOT_DIR provider acc ;;
      add_each ROOT_DIR provider rest
  end.

(** *** Sample values *)

Definition sample_root : string := "/srv/mpv2".
Definition sample_dir : string := "/srv/mpv2/.mp".
Definition sample_twitter : string := "/srv/mpv2/.mp/twitter.json".
Definition sample_youtube : string := "/srv/mpv2/.mp/youtube.json".
Definition rec_a : pydict := [("id", JStr "a"); ("nickname", JStr "X")].
Definition rec_b : pydict := [("id", JStr "b")].

(** A world with the twitter document holding [accounts], a youtube
    document with one account, and the faults [fl] to come. *)
Definition sample_world (accounts : json) (fl : list bool) : world :=
  World (<[sample_twitter := Doc (JObj [("accounts", accounts)])]>
         (<[sample_youtube := Doc (JObj [("accounts", JArr [JObj rec_b])])]> ∅))
        {[sample_dir]} fl [].

Definition world_one : world := sample_world (JArr [JObj rec_a]) [].

Definition world_two : world := sample_world (JArr [JObj rec_a; JObj rec_b]) [].

(** The sixth system call that can fail does fail. *)
Definition world_rename_fault : world :=
  sample_world (JArr [JObj rec_a]) [false; false; false; false; false; true].

(** The array field holds a number. *)
Definition world_wrong_type : world := sample_world (JNum 5) [].

(** The twitter document does not parse, and the next system call fails. *)
Definition world_corrupt : world :=
  World (<[sample_twitter := Garbage "{oops"]> ∅) {[sample_dir]} [true] [].

Definition sample_afm : string := "/srv/mpv2/.mp/afm.json".

Definition rec_c : pydict := [("id", JStr "c"); ("topic", JStr "T")].

(** No file and no directory yet. *)
Definition world_empty : world := World ∅ ∅ [] [].

(** No document, and the next system call fails. *)
Definition world_creation_fault : world := World ∅ {[sample_dir]} [true] [].

(** The documents of [world_one], and the next system call fails. *)
Definition world_read_fault : world := sample_world (JArr [JObj rec_a]) [true].

(** The documents of [world_one]; the read goes through and the third
    system call, the [open] of the temporary file, fails. *)
Definition world_write_fault : world :=
  sample_world (JArr [JObj rec_a]) [false; false; true].

(** The twitter document has a key beside [accounts]. *)
Definition world_versioned : world :=
  World (<[sample_twitter :=
             Doc (JObj [("version", JNum 2); ("accounts", JArr [JObj rec_a])])]> ∅)
        {[sample_dir]} [] [].

(** ** Dictionaries *)

Lemma dict_get_set_eq d k v : dict_get (dict_set d k v) k = Some v.
Proof.
  induction d as [|[k' v'] d IH]; simpl.
  - by rewrite String.eqb_refl.
  - destruct (String.eqb k' k) eqn:E; simpl; rewrite E; auto.
Qed.

Lemma dict_get_set_ne d k k' v :
  k <> k' -> dict_get (dict_set d k v) k' = dict_get d k'.
Proof.
  intros Hne. apply String.eqb_neq in Hne.
  induction d as [|[k0 v0] d IH]; simpl.
  - by rewrite Hne.
  - destruct (String.eqb k0 k) eqn:E; simpl.
    + apply String.eqb_eq in E. subst k0. by rewrite Hne.
    + by rewrite IH.
Qed.

Lemma dict_get_None_keys (d : pydict) k : k ∉ d.*1 -> dict_get d k = None.
Proof.
  induction d as [|[k0 v0] d IH]; simpl; intros Hk; [done|].
  apply not_elem_of_cons in Hk as [Hne Hk].
  destruct (String.eqb k0 k) eqn:E; [apply String.eqb_eq in E; congruence|].
  auto.
Qed.

(** [d.update(u)] takes the value of [u] under the keys of [u] and keeps
    the value of [d] under the other keys. *)
Lemma dict_get_update (d u : pydict) k :
  NoDup u.*1 ->
  dict_get (dict_update d u) k =
    match dict_get u k with Some v => Some v | None => dict_get d k end.
Proof.
  unfold dict_update. revert d.
  induction u as [|[k0 v0] u IH]; intros d Hnd; simpl; [done|].
  apply NoDup_cons in Hnd as [Hk0 Hnd].
  rewrite IH by done.
  destruct (String.eqb k0 k) eqn:E.
  - apply String.eqb_eq in E. subst k0.
    by rewrite dict_get_None_keys, dict_get_set_eq.
  - apply String.eqb_neq in E. by rewrite dict_get_set_ne.
Qed.

(** Comparing with a string: only that string is equal to it. *)
Lemma py_eq_str v s : py_eq v (JStr s) = true <-> v = JStr s.
Proof.
  destruct v; simpl; split; try done.
  - intros E. apply String.eqb_eq in E. by subst.
  - intros [= ->]. apply String.eqb_refl.
Qed.

Lemma py_eq_str_l s v : py_eq (JStr s) v = true <-> v = JStr s.
Proof.
  destruct v; simpl; split; try done.
  - intros E. apply String.eqb_eq in E. by subst.
  - intros [= ->]. apply String.eqb_refl.
Qed.

(** ** Paths *)

Lemma list_ascii_app a b :
  String.list_ascii_of_string (a +:+ b) =
  (String.list_ascii_of_string a ++ String.list_ascii_of_string b)%list.
Proof. induction a as [|c a IH]; simpl; [done|]. by f_equal. Qed.

Lemma length_list_ascii s :
  length (String.list_ascii_of_string s) = String.length s.
Proof. induction s as [|c s IH]; simpl; [done|]. by rewrite IH. Qed.

Lemma string_length_of_list l :
  String.length (String.string_of_list_ascii l) = length l.
Proof. induction l as [|c l IH]; simpl; [done|]. by rewrite IH. Qed.

Lemma string_length_app a b :
  String.length (a +:+ b) = (String.length a + String.length b)%nat.
Proof. induction a as [|c a IH]; simpl; [done|]. by f_equal. Qed.

Lemma string_app_cons x a b : String x a +:+ b = String x (a +:+ b).
Proof. reflexivity. Qed.

Lemma string_app_assoc a b c : (a +:+ b) +:+ c = a +:+ (b +:+ c).
Proof.
  induction a as [|x a IH]; [done|].
  by rewrite !string_app_cons, IH.
Qed.

Lemma drop_while_length {A} (f : A -> bool) l :
  (length (drop_while f l) <= length l)%nat.
Proof. induction l as [|x l IH]; simpl; [lia|]. destruct (f x); simpl; lia. Qed.

Lemma drop_while_app_all {A} (f : A -> bool) l1 l2 :
  forallb f l1 = true -> drop_while f (l1 ++ l2) = drop_while f l2.
Proof.
  induction l1 as [|x l1 IH]; simpl; [done|].
  intros [-> H]%andb_prop. auto.
Qed.

Lemma forallb_rev {A} (f : A -> bool) l : forallb f (rev l) = forallb f l.
Proof.
  induction l as [|x l IH]; simpl; [done|].
  rewrite forallb_app, IH. simpl. destruct (f x), (forallb f l); done.
Qed.

(** The directory of [x +:+ b] lies within [x] when [b] has no separator. *)
Lemma dirname_app_length x b :
  forallb (fun c => negb (is_sep c)) (String.list_ascii_of_string b) = true ->
  (String.length (os_path_dirname (x +:+ b)) <= String.length x)%nat.
Proof.
  intros Hb. unfold os_path_dirname.
  rewrite list_ascii_app, rev_app_distr, drop_while_app_all
    by (by rewrite forallb_rev).
  set (head := drop_while _ _).
  assert (length head <= String.length x)%nat as Hh.
  { subst head. etrans; [apply drop_while_length|].
    by rewrite length_rev, length_list_ascii. }
  destruct (forallb is_sep head); rewrite string_length_of_list, length_rev; [done|].
  etrans; [apply drop_while_length|done].
Qed.

Lemma join_cache_prefix ROOT_DIR name :
  String.prefix "/" name = false ->
  os_path_join (get_cache_path ROOT_DIR) name = cache_prefix ROOT_DIR +:+ name.
Proof.
  intros Hn. unfold os_path_join, cache_prefix. rewrite Hn.
  destruct (_ || _); [done|]. by rewrite string_app_assoc.
Qed.

Lemma twitter_path ROOT_DIR :
  get_twitter_cache_path ROOT_DIR = cache_prefix ROOT_DIR +:+ "twitter.json".
Proof. by apply join_cache_prefix. Qed.
Lemma youtube_path ROOT_DIR :
  get_youtube_cache_path ROOT_DIR = cache_prefix ROOT_DIR +:+ "youtube.json".
Proof. by apply join_cache_prefix. Qed.
Lemma afm_path ROOT_DIR :
  get_afm_cache_path ROOT_DIR = cache_prefix ROOT_DIR +:+ "afm.json".
Proof. by apply join_cache_prefix. Qed.

Lemma proper_dirname_ne p : proper_path p -> os_path_dirname p <> p.
Proof. unfold proper_path. intros H E. rewrite E in H. lia. Qed.

Lemma proper_dirname_ne_tmp p : proper_path p -> os_path_dirname p <> p +:+ ".tmp".
Proof.
  unfold proper_path. intros H E. rewrite E, string_length_app in H. lia.
Qed.

Lemma tmp_ne p : p +:+ ".tmp" <> p.
Proof.
  intros E. apply (f_equal String.length) in E.
  rewrite string_length_app in E. simpl in E. lia.
Qed.

Lemma document_proper ROOT_DIR p : p ∈ documents ROOT_DIR -> proper_path p.
Proof.
  unfold documents, proper_path. rewrite twitter_path, youtube_path, afm_path.
  intros Hp. repeat (apply elem_of_cons in Hp as [->|Hp]);
    [| | |by apply elem_of_nil in Hp].
  all: rewrite string_length_app; simpl String.length.
  all: eapply Nat.le_lt_trans; [by apply dirname_app_length|lia].
Qed.

(** Documents of different collections are apart: no one is another one,
    its temporary file or its directory. *)
Lemma documents_apart ROOT_DIR p q :
  p ∈ documents ROOT_DIR -> q ∈ documents ROOT_DIR -> q <> p ->
  q ∉ footprint p.
Proof.
  unfold documents, footprint. rewrite twitter_path, youtube_path, afm_path.
  intros Hp Hq Hne Hin.
  repeat (apply elem_of_cons in Hin as [Hin|Hin]); [done| | |by apply elem_of_nil in Hin].
  - repeat (apply elem_of_cons in Hp as [->|Hp]); [| | |by apply elem_of_nil in Hp];
    repeat (apply elem_of_cons in Hq as [->|Hq]); try (by apply elem_of_nil in Hq);
    rewrite string_app_assoc in Hin; apply (inj _) in Hin; discriminate.
  - assert (String.length q <= String.length (cache_prefix ROOT_DIR))%nat as Hl.
    { rewrite Hin.
      repeat (apply elem_of_cons in Hp as [->|Hp]); [| | |by apply elem_of_nil in Hp];
      by apply dirname_app_length. }
    repeat (apply elem_of_cons in Hq as [->|Hq]); try (by apply elem_of_nil in Hq);
    rewrite string_length_app in Hl; simpl in Hl; lia.
Qed.

(** ** Running computations *)

Ltac mred :=
  repeat (progress
    (cbv [bind try_except ret raise lift touch next_fault get_files get_dirs
          put_files put_dirs os_path_exists os_makedirs open_w json_dump
          open_r json_load os_remove os_rename remove_if_exists run exec
          fst snd];
     cbn [files dirs faults trace negb])).

Ltac mcase :=
  match goal with
  | H : ?c = _ |- context [if ?c then _ else _] => rewrite H
  | H : ?c = _ |- context [match ?c with Some _ => _ | None => _ end] => rewrite H
  | |- context [if ?c then _ else _] => destruct c eqn:?
  | |- context [match ?x !! ?p with Some _ => _ | None => _ end] =>
      destruct (x !! p) eqn:?
  end.

Ltac fcase :=
  match goal with
  | |- context [match ?l with [] => _ | _ :: _ => _ end] =>
      is_var l; destruct l as [|[] ?]
  end.

(** Run in a world without faults, and in any world. *)
Ltac mrun := mred; repeat (mcase; cbn [negb] in *; try discriminate; mred).
Ltac mrun_all :=
  mred; repeat (first [mcase | fcase]; cbn [negb] in *; try discriminate; mred).

Lemma bind_ok {A B} (m : M A) (k : A -> M B) w a w1 :
  m w = (Ok a, w1) -> bind m k w = k a w1.
Proof. unfold bind. by intros ->. Qed.

Lemma bind_raise {A B} (m : M A) (k : A -> M B) w e w1 :
  m w = (Raise e, w1) -> bind m k w = (Raise e, w1).
Proof. unfold bind. by intros ->. Qed.

(** ** Frames *)

Global Instance only_touches_preorder ps : PreOrder (only_touches ps).
Proof.
  split.
  - intros w. split; [done|]. exists []. split; [by rewrite app_nil_r|].
    intros q Hq. by apply elem_of_nil in Hq.
  - intros w1 w2 w3 [Hf1 (t1 & Ht1 & Hp1)] [Hf2 (t2 & Ht2 & Hp2)]. split.
    + intros q Hq. by rewrite Hf2, Hf1.
    + exists (t1 ++ t2)%list. split; [by rewrite Ht2, Ht1, app_assoc|].
      intros q [?|?]%elem_of_app; auto.
Qed.

Section Preserves.
Context (R : relation world) `{!PreOrder R}.

Lemma preserves_ret {A} (a : A) : preserves R (ret a).
Proof. intros w. reflexivity. Qed.

Lemma preserves_raise {A} e : preserves R (@raise A e).
Proof. intros w. reflexivity. Qed.

Lemma preserves_lift {A} (r : result A) : preserves R (lift r).
Proof. intros w. reflexivity. Qed.

Lemma preserves_bind {A B} (m : M A) (k : A -> M B) :
  preserves R m -> (forall a, preserves R (k a)) -> preserves R (bind m k).
Proof.
  intros Hm Hk w. specialize (Hm w). unfold exec, bind in *.
  destruct (m w) as [[a|e] w1]; simpl in *; [|done].
  etrans; [exact Hm|apply Hk].
Qed.

Lemma preserves_try {A} (m : M A) (h : exn -> M A) :
  preserves R m -> (forall e, preserves R (h e)) -> preserves R (try_except m h).
Proof.
  intros Hm Hh w. specialize (Hm w). unfold exec, try_except in *.
  destruct (m w) as [[a|e] w1]; simpl in *; [done|].
  etrans; [exact Hm|apply Hh].
Qed.
End Preserves.

Ltac frame_step :=
  lazymatch goal with
  | |- preserves _ (bind _ _) => apply preserves_bind; [tc_solve| |intros ?]
  | |- preserves _ (try_except _ _) => apply preserves_try; [tc_solve| |intros ?]
  | |- preserves _ (ret _) => apply preserves_ret; tc_solve
  | |- preserves _ (raise _) => apply preserves_raise; tc_solve
  | |- preserves _ (lift _) => apply preserves_lift; tc_solve
  | |- preserves _ (if ?b then _ else _) => destruct b
  | |- preserves _ (match ?x with _ => _ end) => destruct x
  end.

Ltac touched :=
  repeat match goal with
  | H : ?q ∉ ?ps, H' : ?p ∈ ?ps |- context [_ !! ?q] =>
      lazymatch goal with
      | _ : p <> q |- _ => fail
      | _ => assert (p <> q) by (intros ->; done)
      end
  end.

Ltac frame_prim :=
  let q := fresh "q" in let Hq := fresh "Hq" in
  intros [? ? ? ?]; unfold exec; mrun_all;
  (split; cbn [files trace];
   [ intros q Hq; touched;
     rewrite ?lookup_insert_ne, ?lookup_delete_ne by done; done
   | eexists; split;
     [ rewrite <- ?app_assoc; first [reflexivity | symmetry; apply app_nil_r]
     | intros q Hq; rewrite ?elem_of_app, ?elem_of_cons, ?elem_of_nil in Hq;
       intuition (subst; done) ] ]).

Section Touches.
Context (ps : list string).

Lemma os_path_exists_touches p : p ∈ ps -> preserves (only_touches ps) (os_path_exists p).
Proof. intros Hp. frame_prim. Qed.

Lemma os_makedirs_touches p : p ∈ ps -> preserves (only_touches ps) (os_makedirs p).
Proof. intros Hp. frame_prim. Qed.

Lemma open_w_touches p : p ∈ ps -> preserves (only_touches ps) (open_w p).
Proof. intros Hp. frame_prim. Qed.

Lemma json_dump_touches p data : p ∈ ps -> preserves (only_touches ps) (json_dump p data).
Proof. intros Hp. frame_prim. Qed.

Lemma open_r_touches p : p ∈ ps -> preserves (only_touches ps) (open_r p).
Proof. intros Hp. frame_prim. Qed.

Lemma json_load_touches c : preserves (only_touches ps) (json_load c).
Proof. destruct c; frame_prim. Qed.

Lemma os_remove_touches p : p ∈ ps -> preserves (only_touches ps) (os_remove p).
Proof. intros Hp. frame_prim. Qed.

Lemma os_rename_touches p p' :
  p ∈ ps -> p' ∈ ps -> preserves (only_touches ps) (os_rename p p').
Proof. intros Hp Hp'. frame_prim. Qed.
End Touches.

Ltac solve_mem :=
  unfold footprint, documents; rewrite ?elem_of_cons; auto 10.

Ltac frame :=
  repeat first
    [ frame_step
    | apply os_path_exists_touches; solve_mem
    | apply os_makedirs_touches; solve_mem
    | apply open_w_touches; solve_mem
    | apply json_dump_touches; solve_mem
    | apply open_r_touches; solve_mem
    | apply json_load_touches
    | apply os_remove_touches; solve_mem
    | apply os_rename_touches; solve_mem ].

Lemma ensure_touches path dflt :
  preserves (only_touches (footprint path)) (_ensure_cache_file_exists path dflt).
Proof. unfold _ensure_cache_file_exists. frame. Qed.

Lemma read_touches path dflt :
  preserves (only_touches (footprint path)) (_read_cache_file path dflt).
Proof.
  unfold _read_cache_file. frame_step; [apply ensure_touches|]. frame.
Qed.

Lemma write_touches path data :
  preserves (only_touches (footprint path)) (_write_cache_file path data).
Proof. unfold _write_cache_file. frame. Qed.

Ltac frame_op :=
  repeat first
    [ apply read_touches
    | apply write_touches
    | frame_step ].

Lemma get_accounts_touches ROOT_DIR provider :
  preserves (only_touches (footprint (account_cache_path ROOT_DIR provider)))
    (get_accounts ROOT_DIR provider).
Proof. unfold get_accounts. frame_op. Qed.

Lemma add_account_touches ROOT_DIR provider account :
  preserves (only_touches (footprint (account_cache_path ROOT_DIR provider)))
    (add_account ROOT_DIR provider account).
Proof. unfold add_account. frame_op. Qed.

Lemma remove_account_touches ROOT_DIR provider account_id :
  preserves (only_touches (footprint (account_cache_path ROOT_DIR provider)))
    (remove_account ROOT_DIR provider account_id).
Proof. unfold remove_account. frame_op. Qed.

Lemma update_account_touches ROOT_DIR provider account_id updates :
  preserves (only_touches (footprint (account_cache_path ROOT_DIR provider)))
    (update_account ROOT_DIR provider account_id updates).
Proof. unfold update_account. frame_op. Qed.

Lemma get_products_touches ROOT_DIR :
  preserves (only_touches (footprint (get_afm_cache_path ROOT_DIR)))
    (get_products ROOT_DIR).
Proof. unfold get_products. frame_op. Qed.

Lemma add_product_touches ROOT_DIR product :
  preserves (only_touches (footprint (get_afm_cache_path ROOT_DIR)))
    (add_product ROOT_DIR product).
Proof. unfold add_product. frame_op. Qed.

Lemma remove_if_exists_touches ps p :
  p ∈ ps -> preserves (only_touches ps) (remove_if_exists p).
Proof. intros Hp. unfold remove_if_exists. frame. Qed.

Lemma clear_cache_touches ROOT_DIR provider :
  preserves (only_touches (cleared ROOT_DIR provider)) (clear_cache ROOT_DIR provider).
Proof.
  unfold clear_cache, cleared. destruct provider as [p|].
  - destruct (String.eqb p "twitter") eqn:E1;
      [apply String.eqb_eq in E1; subst p; cbn [String.eqb Ascii.eqb Bool.eqb]|];
    [|destruct (String.eqb p "youtube") eqn:E2;
      [apply String.eqb_eq in E2; subst p; cbn [String.eqb Ascii.eqb Bool.eqb]|]];
    [| |destruct (String.eqb p "afm") eqn:E3];
    repeat first [apply remove_if_exists_touches; solve_mem | frame_step].
  - repeat first [apply remove_if_exists_touches; solve_mem | frame_step].
Qed.

(** ** Worlds without faults *)

Lemma is_dir_union_singleton ds p q :
  is_dir ({[p]} ∪ ds) q = true <-> q = p \/ is_dir ds q = true.
Proof.
  unfold is_dir. rewrite !bool_decide_eq_true, elem_of_union, elem_of_singleton.
  done.
Qed.

Lemma ensure_quiet path dflt w :
  faults w = [] -> os_path_dirname path <> path ->
  exists w1, _ensure_cache_file_exists path dflt w = (Ok tt, w1) /\
    faults w1 = [] /\
    files w1 = (if exists_at w path then files w
                else <[path := Doc (JObj dflt)]> (files w)) /\
    (exists_at w path = true -> dirs w1 = dirs w) /\
    (forall q, is_dir (dirs w1) q = true ->
       q = os_path_dirname path \/ is_dir (dirs w) q = true).
Proof.
  destruct w as [fs ds fl tr]; simpl. intros -> Hne.
  unfold _ensure_cache_file_exists, exists_at. mred.
  destruct (is_file fs path || is_dir ds path) eqn:He; mred; [eauto 10|].
  apply orb_false_elim in He as [Hf Hd].
  assert (is_dir ({[os_path_dirname path]} ∪ ds) path = false) as Hd'.
  { apply not_true_is_false. rewrite is_dir_union_singleton. intros [?|?]; congruence. }
  mrun; (eexists; split; [reflexivity|]); mred; rewrite insert_insert_eq;
    repeat split; auto; try discriminate.
  intros q. rewrite is_dir_union_singleton. tauto.
Qed.

Lemma read_quiet path dflt w :
  faults w = [] -> os_path_dirname path <> path ->
  exists w1, _read_cache_file path dflt w = (Ok (doc_dict (files w !! path) dflt), w1) /\
    faults w1 = [] /\
    files w1 = (if exists_at w path then files w
                else <[path := Doc (JObj dflt)]> (files w)) /\
    (exists_at w path = true -> dirs w1 = dirs w) /\
    (forall q, is_dir (dirs w1) q = true ->
       q = os_path_dirname path \/ is_dir (dirs w) q = true).
Proof.
  intros Hq Hne.
  destruct (ensure_quiet path dflt w Hq Hne) as (w1 & E & Hq1 & Hf1 & Hd1 & Hd2).
  unfold _read_cache_file. rewrite (bind_ok _ _ _ _ _ E).
  destruct w1 as [fs1 ds1 fl1 tr1]. simpl in *. subst fl1.
  mred. unfold exists_at, is_file in *.
  destruct (files w !! path) as [c|] eqn:Hc; simpl in *.
  - subst fs1. rewrite Hc. destruct c as [[]|]; simpl; eauto 10.
  - destruct (is_dir (dirs w) path) eqn:Hd; simpl in *; subst fs1.
    + rewrite Hc. eauto 10.
    + rewrite lookup_insert_eq. eauto 10.
Qed.

(** What a read in a world without faults leaves at the document. *)
Lemma read_quiet_lookup path dflt w w1 :
  files w1 = (if exists_at w path then files w
              else <[path := Doc (JObj dflt)]> (files w)) ->
  doc_dict (files w1 !! path) dflt = doc_dict (files w !! path) dflt.
Proof.
  intros ->. unfold exists_at, is_file.
  destruct (files w !! path) as [c|] eqn:Hc; cbn [orb]; [by rewrite Hc|].
  destruct (is_dir (dirs w) path); [by rewrite Hc|].
  by rewrite lookup_insert_eq.
Qed.

Lemma calm_after_read path w w1 :
  calm w path -> proper_path path -> faults w1 = [] ->
  (forall q, is_dir (dirs w1) q = true ->
     q = os_path_dirname path \/ is_dir (dirs w) q = true) ->
  calm w1 path.
Proof.
  intros (Hq & Hd & Ht) Hp Hq1 Hds. split; [done|].
  split; apply not_true_is_false; intros [E|E]%Hds; try congruence.
  - by apply proper_dirname_ne in Hp.
  - by apply proper_dirname_ne_tmp in Hp.
Qed.

Ltac files_eq path :=
  let q := fresh "q" in
  apply map_eq; intros q;
  destruct (decide (q = path)) as [->|];
  [|destruct (decide (q = path +:+ ".tmp")) as [->|]];
  repeat first
    [ rewrite lookup_insert_eq | rewrite lookup_delete_eq
    | rewrite lookup_insert_ne by done | rewrite lookup_delete_ne by done ];
  try done.

Lemma write_quiet path data w :
  calm w path ->
  exists w2, _write_cache_file path data w = (Ok true, w2) /\
    faults w2 = [] /\
    files w2 = <[path := Doc (JObj data)]> (delete (path +:+ ".tmp") (files w)) /\
    dirs w2 = dirs w.
Proof.
  destruct w as [fs ds fl tr]; unfold calm; simpl. intros (-> & Hd & Ht).
  pose proof (tmp_ne path) as Hne.
  unfold _write_cache_file. mred. rewrite Ht. mred. rewrite Hd.
  unfold is_file. rewrite orb_false_r.
  rewrite !lookup_insert_ne by done.
  destruct (fs !! path) as [c|] eqn:Hc; mred.
  - rewrite !lookup_insert_ne, Hc by done. mred.
    rewrite lookup_delete_ne, lookup_insert_eq by done. rewrite Hd.
    eexists; split; [reflexivity|]. repeat split; simpl.
    files_eq path.
  - rewrite lookup_insert_eq, Hd.
    eexists; split; [reflexivity|]. repeat split; simpl.
    files_eq path.
Qed.

(** ** Records *)

Lemma comprehension_ids recs :
  comprehension (fun acc => py_get acc "id") (JObj <$> recs) = Ok (id_of <$> recs).
Proof.
  induction recs as [|r recs IH]; [done|].
  rewrite !fmap_cons. cbn [comprehension py_get rbind]. by rewrite IH.
Qed.

Lemma comprehension_if_ids account_id recs :
  comprehension_if
    (fun account => rbind (py_get account "id") (fun v =>
                    Ok (negb (py_eq v (JStr account_id))))) (JObj <$> recs) =
  Ok (JObj <$> List.filter (fun r => negb (has_id account_id r)) recs).
Proof.
  induction recs as [|r recs IH]; [done|].
  rewrite fmap_cons. cbn [comprehension_if py_get rbind List.filter].
  rewrite IH. cbn [rbind]. unfold has_id, id_of.
  by destruct (py_eq _ _).
Qed.

Lemma update_loop_records account_id updates recs :
  update_loop account_id updates (JObj <$> recs) =
  Ok (existsb (has_id account_id) recs,
      JObj <$> patch_first (has_id account_id) updates recs).
Proof.
  induction recs as [|r recs IH]; [done|].
  rewrite fmap_cons. cbn [update_loop py_get rbind existsb patch_first].
  rewrite IH. destruct (has_id account_id r) eqn:E; unfold has_id, id_of in E;
    rewrite E; done.
Qed.

Lemma filter_none {A} (f : A -> bool) l :
  existsb f l = false -> List.filter (fun x => negb (f x)) l = l.
Proof.
  induction l as [|x l IH]; simpl; [done|].
  intros [-> H]%orb_false_elim. simpl. by rewrite IH.
Qed.

Lemma filter_length_le {A} (f : A -> bool) l :
  (length (List.filter f l) <= length l)%nat.
Proof. induction l as [|x l IH]; simpl; [lia|]. destruct (f x); simpl; lia. Qed.

Lemma filter_length_eqb {A} (f : A -> bool) l :
  Nat.eqb (length (List.filter (fun x => negb (f x)) l)) (length l) =
  negb (existsb f l).
Proof.
  induction l as [|x l IH]; simpl; [done|].
  destruct (f x); simpl; [|done].
  apply Nat.eqb_neq. pose proof (filter_length_le (fun x => negb (f x)) l). lia.
Qed.

Lemma patch_first_none matches updates recs :
  existsb matches recs = false -> patch_first matches updates recs = recs.
Proof.
  induction recs as [|r recs IH]; simpl; [done|].
  intros [-> H]%orb_false_elim. by rewrite IH.
Qed.

Lemma patch_first_split matches updates pre r post :
  existsb matches pre = false -> matches r = true ->
  patch_first matches updates (pre ++ r :: post)%list =
  (pre ++ dict_update r updates :: post)%list.
Proof.
  intros Hpre Hr. induction pre as [|x pre IH]; simpl in *; [by rewrite Hr|].
  apply orb_false_elim in Hpre as [-> Hpre]. by rewrite IH.
Qed.

Lemma existsb_split matches pre (r : pydict) post :
  matches r = true -> existsb matches (pre ++ r :: post)%list = true.
Proof. intros Hr. rewrite existsb_app. simpl. rewrite Hr. by destruct (existsb _ pre). Qed.

Lemma stored_written path field data v (fs : gmap string content) :
  stored (<[path := Doc (JObj (dict_set data field v))]> fs !! path) field = v.
Proof. unfold stored. by rewrite lookup_insert_eq; simpl; rewrite dict_get_set_eq. Qed.

Lemma account_path_document ROOT_DIR provider :
  account_cache_path ROOT_DIR provider ∈ documents ROOT_DIR.
Proof. unfold account_cache_path, documents. destruct (String.eqb _ _); solve_mem. Qed.

Lemma afm_path_document ROOT_DIR : get_afm_cache_path ROOT_DIR ∈ documents ROOT_DIR.
Proof. solve_mem. Qed.

Lemma document_dirname_ne ROOT_DIR p :
  p ∈ documents ROOT_DIR -> os_path_dirname p <> p.
Proof. intros Hp. by apply proper_dirname_ne, (document_proper ROOT_DIR). Qed.

(** ** The operations in a world without faults *)

Lemma read_field_quiet ROOT_DIR path field w :
  path ∈ documents ROOT_DIR -> faults w = [] ->
  exists w1,
    _read_cache_file path [(field, JArr [])] w =
      (Ok (doc_dict (files w !! path) [(field, JArr [])]), w1) /\
    faults w1 = [] /\
    stored (files w1 !! path) field = stored (files w !! path) field /\
    (is_Some (files w !! path) -> files w1 = files w) /\
    (calm w path -> calm w1 path).
Proof.
  intros Hp Hq.
  destruct (read_quiet path [(field, JArr [])] w Hq
              (document_dirname_ne _ _ Hp)) as (w1 & E & Hq1 & Hf & Hd1 & Hd2).
  exists w1. split; [done|]. split; [done|]. split; [|split].
  - unfold stored. by rewrite (read_quiet_lookup _ _ _ _ Hf).
  - intros [c Hc]. rewrite Hf. unfold exists_at, is_file. by rewrite Hc.
  - intros Hcalm. eapply calm_after_read; eauto using document_proper.
Qed.

Lemma get_accounts_quiet ROOT_DIR provider w :
  is_account_provider provider = true -> faults w = [] ->
  run (get_accounts ROOT_DIR provider) w =
    Ok (stored (files w !! account_cache_path ROOT_DIR provider) "accounts").
Proof.
  intros Hv Hq. unfold get_accounts, run. rewrite Hv. cbn [negb].
  destruct (read_field_quiet ROOT_DIR _ "accounts" w
              (account_path_document ROOT_DIR provider) Hq) as (w1 & E & _).
  by rewrite (bind_ok _ _ _ _ _ E).
Qed.

Lemma get_products_quiet ROOT_DIR w :
  faults w = [] ->
  run (get_products ROOT_DIR) w =
    Ok (stored (files w !! get_afm_cache_path ROOT_DIR) "products").
Proof.
  intros Hq. unfold get_products, run.
  destruct (read_field_quiet ROOT_DIR _ "products" w
              (afm_path_document ROOT_DIR) Hq) as (w1 & E & _).
  by rewrite (bind_ok _ _ _ _ _ E).
Qed.

Lemma remove_account_quiet ROOT_DIR provider account_id recs w :
  let path := account_cache_path ROOT_DIR provider in
  is_account_provider provider = true -> calm w path ->
  stored (files w !! path) "accounts" = JArr (JObj <$> recs) ->
  exists w',
    remove_account ROOT_DIR provider account_id w =
      (Ok (existsb (has_id account_id) recs), w') /\
    faults w' = [] /\
    stored (files w' !! path) "accounts" =
      JArr (JObj <$> List.filter (fun r => negb (has_id account_id r)) recs) /\
    (existsb (has_id account_id) recs = false ->
       is_Some (files w !! path) -> files w' = files w).
Proof.
  intros path Hv Hcalm Hst. unfold remove_account. rewrite Hv. cbn [negb].
  fold path.
  destruct (read_field_quiet ROOT_DIR path "accounts" w
              (account_path_document ROOT_DIR provider) (proj1 Hcalm))
    as (w1 & E & Hq1 & Hst1 & Hf1 & Hc1).
  rewrite (bind_ok _ _ _ _ _ E). fold (stored (files w !! path) "accounts").
  rewrite Hst. cbn [py_len py_iter lift]. mred.
  rewrite comprehension_if_ids. mred.
  rewrite !length_fmap, filter_length_eqb.
  destruct (existsb (has_id account_id) recs) eqn:Hex; cbn [negb]; mred.
  - destruct (write_quiet path
      (dict_set (doc_dict (files w !! path) [("accounts", JArr [])]) "accounts"
         (JArr (JObj <$> List.filter (fun r => negb (has_id account_id r)) recs)))
      w1 (Hc1 Hcalm)) as (w2 & E2 & Hq2 & Hf2 & Hd2).
    rewrite E2. exists w2. split; [done|]. split; [done|]. split; [|done].
    rewrite Hf2. apply stored_written.
  - exists w1. split; [done|]. split; [done|]. split; [|auto].
    by rewrite Hst1, Hst, filter_none.
Qed.

Lemma add_account_quiet ROOT_DIR provider acct recs w :
  let path := account_cache_path ROOT_DIR provider in
  let dup := py_in (id_of acct) (id_of <$> recs) in
  is_account_provider provider = true -> calm w path ->
  dict_has acct "id" = true ->
  stored (files w !! path) "accounts" = JArr (JObj <$> recs) ->
  exists w',
    add_account ROOT_DIR provider (JObj acct) w = (Ok (negb dup), w') /\
    faults w' = [] /\
    stored (files w' !! path) "accounts" =
      JArr (JObj <$> (if dup then recs else recs ++ [acct])%list) /\
    (dup = true -> is_Some (files w !! path) -> files w' = files w).
Proof.
  intros path dup Hv Hcalm Hid Hst. unfold add_account. rewrite Hv, Hid. cbn [negb].
  fold path.
  destruct (read_field_quiet ROOT_DIR path "accounts" w
              (account_path_document ROOT_DIR provider) (proj1 Hcalm))
    as (w1 & E & Hq1 & Hst1 & Hf1 & Hc1).
  rewrite (bind_ok _ _ _ _ _ E). fold (stored (files w !! path) "accounts").
  rewrite Hst. cbn [py_iter lift]. mred.
  rewrite comprehension_ids. mred. fold (id_of acct). fold dup.
  destruct dup eqn:Hdup; cbn [negb]; mred.
  - exists w1. split; [done|]. split; [done|]. split; [|auto].
    by rewrite Hst1, Hst.
  - destruct (write_quiet path
      (dict_set (doc_dict (files w !! path) [("accounts", JArr [])]) "accounts"
         (JArr ((JObj <$> recs) ++ [JObj acct])))
      w1 (Hc1 Hcalm)) as (w2 & E2 & Hq2 & Hf2 & Hd2).
    cbn [py_append]. rewrite E2. exists w2. split; [done|]. split; [done|].
    split; [|done].
    rewrite Hf2, stored_written. by rewrite fmap_app.
Qed.

Lemma update_account_quiet ROOT_DIR provider account_id updates recs w :
  let path := account_cache_path ROOT_DIR provider in
  is_account_provider provider = true -> calm w path ->
  stored (files w !! path) "accounts" = JArr (JObj <$> recs) ->
  exists w',
    update_account ROOT_DIR provider account_id updates w =
      (Ok (existsb (has_id account_id) recs), w') /\
    faults w' = [] /\
    stored (files w' !! path) "accounts" =
      JArr (JObj <$> patch_first (has_id account_id) updates recs) /\
    (existsb (has_id account_id) recs = false ->
       is_Some (files w !! path) -> files w' = files w).
Proof.
  intros path Hv Hcalm Hst. unfold update_account. rewrite Hv. cbn [negb].
  fold path.
  destruct (read_field_quiet ROOT_DIR path "accounts" w
              (account_path_document ROOT_DIR provider) (proj1 Hcalm))
    as (w1 & E & Hq1 & Hst1 & Hf1 & Hc1).
  rewrite (bind_ok _ _ _ _ _ E). fold (stored (files w !! path) "accounts").
  rewrite Hst. cbn [py_iter lift]. mred.
  rewrite update_loop_records. mred.
  destruct (existsb (has_id account_id) recs) eqn:Hex; cbn [negb]; mred.
  - destruct (write_quiet path
      (dict_set (doc_dict (files w !! path) [("accounts", JArr [])]) "accounts"
         (JArr (JObj <$> patch_first (has_id account_id) updates recs)))
      w1 (Hc1 Hcalm)) as (w2 & E2 & Hq2 & Hf2 & Hd2).
    rewrite E2. exists w2. split; [done|]. split; [done|]. split; [|done].
    rewrite Hf2. apply stored_written.
  - exists w1. split; [done|]. split; [done|]. split; [|auto].
    by rewrite Hst1, Hst, patch_first_none.
Qed.

(** ** Reads and writes in any world *)

Ltac vcase :=
  match goal with
  | |- context [match ?c with Doc _ => _ | Garbage _ => _ end] =>
      is_var c; destruct c
  | |- context [match ?j with JObj _ => _ | _ => _ end] =>
      is_var j; destruct j
  end.

Lemma read_existing path dflt w :
  exists_at w path = true ->
  exists d w1, _read_cache_file path dflt w = (Ok d, w1) /\
    (d = dflt \/ files w !! path = Some (Doc (JObj d))) /\
    (forall c, files w !! path = Some c -> unreadable c = true -> d = dflt) /\
    files w1 = files w /\ dirs w1 = dirs w.
Proof.
  destruct w as [fs ds fl tr]. unfold exists_at. cbn [files dirs]. intros Hex.
  unfold _read_cache_file, _ensure_cache_file_exists. mred. rewrite Hex. mred.
  repeat (first [mcase | fcase | vcase]; try discriminate; mred);
    do 2 eexists; (split; [reflexivity|]); cbn [files dirs];
    repeat split; auto; intros; simplify_eq; auto; discriminate.
Qed.

Lemma read_total ROOT_DIR path field w :
  path ∈ documents ROOT_DIR ->
  exists_at w path = true \/ faults w = [] ->
  exists d w1, _read_cache_file path [(field, JArr [])] w = (Ok d, w1) /\
    (d = [(field, JArr [])] \/ files w !! path = Some (Doc (JObj d))).
Proof.
  intros Hp [Hex|Hq].
  - destruct (read_existing path [(field, JArr [])] w Hex) as (d & w1 & E & Hd & _).
    eauto.
  - destruct (read_quiet path [(field, JArr [])] w Hq
                (document_dirname_ne _ _ Hp)) as (w1 & E & _).
    do 2 eexists. split; [exact E|]. unfold doc_dict.
    destruct (files w !! path) as [[[]|]|]; auto.
Qed.

Lemma write_total path data w :
  exists b w2, _write_cache_file path data w = (Ok b, w2).
Proof.
  destruct w as [fs ds fl tr]. unfold _write_cache_file.
  mrun_all; eauto.
Qed.

Lemma objects_records xs : forallb is_obj xs = true -> exists recs, xs = JObj <$> recs.
Proof.
  induction xs as [|x xs IH]; [by exists []|].
  cbn [forallb]. intros [Hx Hxs]%andb_prop. destruct (IH Hxs) as [recs ->].
  destruct x; try discriminate. by exists (kvs :: recs).
Qed.

Lemma holds_records c field d :
  holds_collection c field = true ->
  d = [(field, JArr [])] \/ c = Some (Doc (JObj d)) ->
  exists recs, default (JArr []) (dict_get d field) = JArr (JObj <$> recs).
Proof.
  intros Hc [->| ->].
  - exists []. cbn [dict_get]. by rewrite String.eqb_refl.
  - cbn [holds_collection] in Hc. destruct (dict_get d field) as [[]|]; try discriminate.
    + by apply objects_records in Hc as [recs ->]; exists recs.
    + by exists [].
Qed.

Lemma add_account_returns ROOT_DIR provider acct w :
  let path := account_cache_path ROOT_DIR provider in
  is_account_provider provider = true ->
  dict_has acct "id" = true ->
  holds_collection (files w !! path) "accounts" = true ->
  exists_at w path = true \/ faults w = [] ->
  exists b, run (add_account ROOT_DIR provider (JObj acct)) w = Ok b.
Proof.
  intros path Hv Hid Hc Hw. unfold add_account, run. rewrite Hv, Hid. cbn [negb].
  fold path.
  destruct (read_total ROOT_DIR path "accounts" w
              (account_path_document ROOT_DIR provider) Hw) as (d & w1 & E & Hd).
  rewrite (bind_ok _ _ _ _ _ E).
  destruct (holds_records _ _ d Hc Hd) as [recs ->].
  cbn [py_iter lift]. mred. rewrite comprehension_ids. mred.
  destruct (py_in _ _); [by eexists|]. cbn [py_append].
  destruct (write_total path
    (dict_set d "accounts" (JArr ((JObj <$> recs) ++ [JObj acct]))) w1)
    as (b & w2 & ->).
  by eexists.
Qed.

Lemma add_product_returns ROOT_DIR prod w :
  let path := get_afm_cache_path ROOT_DIR in
  dict_has prod "id" = true ->
  holds_collection (files w !! path) "products" = true ->
  exists_at w path = true \/ faults w = [] ->
  exists b, run (add_product ROOT_DIR (JObj prod)) w = Ok b.
Proof.
  intros path Hid Hc Hw. unfold add_product, run. rewrite Hid. cbn [negb].
  fold path.
  destruct (read_total ROOT_DIR path "products" w
              (afm_path_document ROOT_DIR) Hw) as (d & w1 & E & Hd).
  rewrite (bind_ok _ _ _ _ _ E).
  destruct (holds_records _ _ d Hc Hd) as [recs ->].
  cbn [py_iter lift]. mred. rewrite comprehension_ids. mred.
  destruct (py_in _ _); [by eexists|]. cbn [py_append].
  destruct (write_total path
    (dict_set d "products" (JArr ((JObj <$> recs) ++ [JObj prod]))) w1)
    as (b & w2 & ->).
  by eexists.
Qed.

Lemma listed_stored ROOT_DIR provider w v :
  is_account_provider provider = true -> faults w = [] ->
  run (get_accounts ROOT_DIR provider) w = Ok v ->
  stored (files w !! account_cache_path ROOT_DIR provider) "accounts" = v.
Proof. intros Hv Hq. rewrite get_accounts_quiet by done. by intros [= ->]. Qed.

(** ** Identifiers *)

Lemma py_in_str s ids : py_in (JStr s) ids = true <-> JStr s ∈ ids.
Proof.
  unfold py_in. rewrite existsb_exists. split.
  - intros (e & He & Heq). apply py_eq_str_l in Heq as ->. by apply list_elem_of_In.
  - intros Hin. exists (JStr s). split; [by apply list_elem_of_In|].
    by apply py_eq_str_l.
Qed.

Lemma filter_ids_distinct (f : pydict -> bool) recs :
  distinct_ids recs -> distinct_ids (List.filter f recs).
Proof.
  unfold distinct_ids. induction recs as [|r recs IH]; [done|].
  rewrite fmap_cons. intros [Hr Hnd]%NoDup_cons. cbn [List.filter].
  destruct (f r); [|by apply IH].
  rewrite fmap_cons. apply NoDup_cons. split; [|by apply IH].
  intros (r' & Hid & Hin)%list_elem_of_fmap. apply Hr.
  apply list_elem_of_fmap. exists r'. split; [done|].
  apply list_elem_of_In. apply list_elem_of_In, filter_In in Hin. tauto.
Qed.

Lemma dict_has_keys (d : pydict) k : dict_has d k = false -> k ∉ d.*1.
Proof.
  unfold dict_has. induction d as [|[k0 v0] d IH]; cbn [dict_get fmap list_fmap fst].
  - intros _ Hin. by apply elem_of_nil in Hin.
  - destruct (String.eqb k0 k) eqn:E; [done|]. intros Hd.
    apply not_elem_of_cons. split; [|by apply IH].
    apply String.eqb_neq in E. congruence.
Qed.

Lemma dict_get_update_absent (d u : pydict) k :
  dict_has u k = false -> dict_get (dict_update d u) k = dict_get d k.
Proof.
  unfold dict_update. revert d.
  induction u as [|[k0 v0] u IH]; intros d Hk; [done|].
  unfold dict_has in Hk. cbn [dict_get] in Hk. cbn [fold_left fst snd].
  destruct (String.eqb k0 k) eqn:E; [done|].
  rewrite IH by done. apply dict_get_set_ne. by apply String.eqb_neq.
Qed.

Lemma patch_first_ids matches updates recs :
  dict_has updates "id" = false ->
  id_of <$> patch_first matches updates recs = id_of <$> recs.
Proof.
  intros Hu. induction recs as [|r recs IH]; [done|].
  cbn [patch_first]. destruct (matches r); rewrite !fmap_cons.
  - unfold id_of at 1 3. by rewrite dict_get_update_absent.
  - by rewrite IH.
Qed.

(** ** Clearing *)

Lemma documents_distinct ROOT_DIR :
  get_twitter_cache_path ROOT_DIR <> get_youtube_cache_path ROOT_DIR /\
  get_twitter_cache_path ROOT_DIR <> get_afm_cache_path ROOT_DIR /\
  get_youtube_cache_path ROOT_DIR <> get_afm_cache_path ROOT_DIR.
Proof.
  rewrite twitter_path, youtube_path, afm_path.
  repeat split; intros E; apply (inj _) in E; discriminate.
Qed.

Lemma clear_all_quiet ROOT_DIR w :
  faults w = [] ->
  (forall q, q ∈ documents ROOT_DIR -> is_dir (dirs w) q = false) ->
  run (clear_cache ROOT_DIR None) w = Ok true /\
  forall q, q ∈ documents ROOT_DIR ->
    files (exec (clear_cache ROOT_DIR None) w) !! q = None.
Proof.
  destruct w as [fs ds fl tr]. cbn [faults dirs]. intros -> Hd.
  assert (is_dir ds (get_twitter_cache_path ROOT_DIR) = false) as H1
    by (apply Hd; solve_mem).
  assert (is_dir ds (get_youtube_cache_path ROOT_DIR) = false) as H2
    by (apply Hd; solve_mem).
  assert (is_dir ds (get_afm_cache_path ROOT_DIR) = false) as H3
    by (apply Hd; solve_mem).
  destruct (documents_distinct ROOT_DIR) as (Hty & Hta & Hya).
  unfold clear_cache.
  destruct (fs !! get_twitter_cache_path ROOT_DIR) eqn:Ht;
    destruct (fs !! get_youtube_cache_path ROOT_DIR) eqn:Hy;
    destruct (fs !! get_afm_cache_path ROOT_DIR) eqn:Ha;
    repeat (progress
      (mred; unfold is_file; rewrite ?lookup_delete_ne by done;
       rewrite ?Ht, ?Hy, ?Ha, ?H1, ?H2, ?H3; cbn [orb])).
  all: split; [reflexivity|]; intros q Hq; unfold documents in Hq;
    repeat (apply elem_of_cons in Hq as [->|Hq]); try (by apply elem_of_nil in Hq);
    rewrite ?lookup_delete_eq; try done;
    rewrite ?lookup_delete_ne by done; rewrite ?lookup_delete_eq; try done;
    rewrite ?lookup_delete_ne by done; rewrite ?lookup_delete_eq; done.
Qed.

(** ** The claims *)

(** C1.  The document is lost when the rename fails.  The twitter
    document holds one account; [add_account] of a second one reads it,
    writes the temporary file, removes the document, and then [os.rename]
    fails.  The operation returns [False] and the temporary file is
    removed, but the document that was there is gone. *)
Theorem rename_fault_loses_document :
  files world_rename_fault !! sample_twitter =
    Some (Doc (JObj [("accounts", JArr [JObj rec_a])])) /\
  run (add_account sample_root "twitter" (JObj rec_b)) world_rename_fault =
    Ok false /\
  files (exec (add_account sample_root "twitter" (JObj rec_b)) world_rename_fault)
    !! (sample_twitter +:+ ".tmp") = None /\
  files (exec (add_account sample_root "twitter" (JObj rec_b)) world_rename_fault)
    !! sample_twitter = None.
Proof. vm_compute. repeat split. Qed.

(** C2 fails for [update_account]: a patch with an [id] key writes that
    id, here the id of another record, and the list then holds two records
    with the same id. *)
Lemma update_id_patch_duplicates :
  distinct_ids [rec_a; rec_b] /\
  run (get_accounts sample_root "twitter") world_two =
    Ok (JArr (JObj <$> [rec_a; rec_b])) /\
  run (update_account sample_root "twitter" "a" [("id", JStr "b")]) world_two =
    Ok true /\
  exists recs',
    run (get_accounts sample_root "twitter")
        (exec (update_account sample_root "twitter" "a" [("id", JStr "b")])
              world_two) =
      Ok (JArr (JObj <$> recs')) /\
    ~ distinct_ids recs'.
Proof.
  split; [|split; [|split]].
  - unfold distinct_ids. apply NoDup_cons. split; [|apply NoDup_singleton].
    intros H. apply list_elem_of_singleton in H. discriminate.
  - vm_compute. reflexivity.
  - vm_compute. reflexivity.
  - exists [[("id", JStr "b"); ("nickname", JStr "X")]; rec_b].
    split; [vm_compute; reflexivity|].
    unfold distinct_ids. intros [H _]%NoDup_cons. apply H. left.
Qed.

(** C2, as amended.  In a calm world where [get_accounts] lists records
    with pairwise distinct ids: after [add_account] of a record with a
    string id the ids listed are still pairwise distinct, and when the id
    is already there [add_account] returns [False], the list is the same
    and an existing document is not written; after [remove_account] the
    ids are pairwise distinct; after [update_account] with a patch that
    has no [id] key the ids are pairwise distinct. *)
Theorem store_keeps_ids_distinct ROOT_DIR provider recs w :
  is_account_provider provider = true ->
  calm w (account_cache_path ROOT_DIR provider) ->
  run (get_accounts ROOT_DIR provider) w = Ok (JArr (JObj <$> recs)) ->
  distinct_ids recs ->
  (forall acct s,
     dict_get acct "id" = Some (JStr s) ->
     let w' := exec (add_account ROOT_DIR provider (JObj acct)) w in
     exists recs',
       run (get_accounts ROOT_DIR provider) w' = Ok (JArr (JObj <$> recs')) /\
       distinct_ids recs' /\
       (JStr s ∈ id_of <$> recs ->
          run (add_account ROOT_DIR provider (JObj acct)) w = Ok false /\
          recs' = recs /\
          (is_Some (files w !! account_cache_path ROOT_DIR provider) ->
           files w' = files w))) /\
  (forall account_id,
     exists recs',
       run (get_accounts ROOT_DIR provider)
           (exec (remove_account ROOT_DIR provider account_id) w) =
         Ok (JArr (JObj <$> recs')) /\
       distinct_ids recs') /\
  (forall account_id updates,
     dict_has updates "id" = false ->
     exists recs',
       run (get_accounts ROOT_DIR provider)
           (exec (update_account ROOT_DIR provider account_id updates) w) =
         Ok (JArr (JObj <$> recs')) /\
       distinct_ids recs').
Proof.
  intros Hv Hcalm Hl Hnd.
  apply listed_stored in Hl; [|done|apply Hcalm].
  split; [|split].
  - intros acct s Hs w'.
    assert (dict_has acct "id" = true) as Hid by (unfold dict_has; by rewrite Hs).
    assert (id_of acct = JStr s) as Hids by (unfold id_of; by rewrite Hs).
    destruct (add_account_quiet ROOT_DIR provider acct recs w Hv Hcalm Hid Hl)
      as (w1 & E & Hq1 & Hst1 & Hf1).
    subst w'. unfold run at 2, exec. rewrite E. cbn [fst snd].
    rewrite Hids in *.
    destruct (py_in (JStr s) (id_of <$> recs)) eqn:Hin.
    + exists recs. rewrite get_accounts_quiet, Hst1 by done.
      split; [done|]. split; [done|]. intros _.
      split; [done|]. split; [done|]. by apply Hf1.
    + exists (recs ++ [acct])%list. rewrite get_accounts_quiet, Hst1 by done.
      assert (JStr s ∉ id_of <$> recs) as Hnin.
      { intros H. apply py_in_str in H. congruence. }
      split; [done|]. split; [|done].
      unfold distinct_ids. rewrite fmap_app. apply NoDup_app.
      split; [done|]. split; [|apply NoDup_singleton].
      intros x Hx [->|[]%elem_of_nil]%elem_of_cons. by rewrite Hids in Hx.
  - intros account_id.
    destruct (remove_account_quiet ROOT_DIR provider account_id recs w Hv Hcalm Hl)
      as (w1 & E & Hq1 & Hst1 & Hf1).
    unfold exec. rewrite E. cbn [snd]. eexists.
    rewrite get_accounts_quiet, Hst1 by done. split; [done|].
    by apply filter_ids_distinct.
  - intros account_id updates Hu.
    destruct (update_account_quiet ROOT_DIR provider account_id updates recs w
                Hv Hcalm Hl) as (w1 & E & Hq1 & Hst1 & Hf1).
    unfold exec. rewrite E. cbn [snd]. eexists.
    rewrite get_accounts_quiet, Hst1 by done. split; [done|].
    unfold distinct_ids. by rewrite patch_first_ids.
Qed.

Lemma store_keeps_ids_distinct_witness :
  run (add_account sample_root "twitter" (JObj rec_b)) world_two = Ok false /\
  exists recs',
    run (get_accounts sample_root "twitter")
        (exec (remove_account sample_root "twitter" "a") world_two) =
      Ok (JArr (JObj <$> recs')) /\
    distinct_ids recs'.
Proof.
  destruct (store_keeps_ids_distinct sample_root "twitter" [rec_a; rec_b] world_two)
    as (Hadd & Hrem & _).
  - reflexivity.
  - repeat split.
  - vm_compute. reflexivity.
  - unfold distinct_ids. apply NoDup_cons. split; [|apply NoDup_singleton].
    intros H. apply list_elem_of_singleton in H. discriminate.
  - split; [|exact (Hrem "a")].
    destruct (Hadd rec_b "b" eq_refl) as (recs' & _ & _ & H).
    apply H. right. left.
Defined.

(** C3.  A document whose array field is not an array: [get_accounts]
    returns the value found there, here a number, not the empty list; the
    operations that go through the list raise. *)
Theorem wrong_type_field_is_returned :
  files world_wrong_type !! sample_twitter =
    Some (Doc (JObj [("accounts", JNum 5)])) /\
  run (get_accounts sample_root "twitter") world_wrong_type = Ok (JNum 5) /\
  run (add_account sample_root "twitter" (JObj rec_a)) world_wrong_type =
    Raise TypeError /\
  run (remove_account sample_root "twitter" "a") world_wrong_type =
    Raise TypeError.
Proof. vm_compute. repeat split. Qed.

(** C4. In a calm world where [get_accounts] lists the records [recs],
    [remove_account] returns [True] exactly when some record has the given
    id; afterwards [get_accounts] lists the records of [recs] whose id is
    not the given one, in their order, so none of them has that id; and
    when no record has the id, the list is the same as before and an
    existing document is left as it is. *)
Theorem remove_account_filters ROOT_DIR provider account_id recs w :
  is_account_provider provider = true ->
  calm w (account_cache_path ROOT_DIR provider) ->
  run (get_accounts ROOT_DIR provider) w = Ok (JArr (JObj <$> recs)) ->
  let w' := exec (remove_account ROOT_DIR provider account_id) w in
  let kept := List.filter (fun r => negb (has_id account_id r)) recs in
  run (remove_account ROOT_DIR provider account_id) w =
    Ok (existsb (has_id account_id) recs) /\
  run (get_accounts ROOT_DIR provider) w' = Ok (JArr (JObj <$> kept)) /\
  Forall (fun r => has_id account_id r = false) kept /\
  (existsb (has_id account_id) recs = false ->
     kept = recs /\ length kept = length recs /\
     (is_Some (files w !! account_cache_path ROOT_DIR provider) ->
      files w' = files w)).
Proof.
  intros Hv Hcalm Hl w' kept.
  apply listed_stored in Hl; [|done|apply Hcalm].
  destruct (remove_account_quiet ROOT_DIR provider account_id recs w Hv Hcalm Hl)
    as (w1 & E & Hq1 & Hst1 & Hf1).
  subst w'. unfold run at 1, exec. rewrite E. cbn [fst snd].
  split; [done|]. split; [by rewrite get_accounts_quiet, Hst1|].
  split.
  - apply Forall_forall. intros r Hr. apply list_elem_of_In, filter_In in Hr as [_ Hr].
    by apply negb_true_iff.
  - intros Hex. subst kept. rewrite filter_none by done. auto.
Qed.

Lemma remove_account_filters_witness :
  run (remove_account sample_root "twitter" "a") world_two = Ok true /\
  run (get_accounts sample_root "twitter")
      (exec (remove_account sample_root "twitter" "a") world_two) =
    Ok (JArr [JObj rec_b]).
Proof.
  destruct (remove_account_filters sample_root "twitter" "a" [rec_a; rec_b]
              world_two) as (H1 & H2 & _).
  - reflexivity.
  - repeat split.
  - vm_compute. reflexivity.
  - split; [exact H1|exact H2].
Defined.

(** C5. In a calm world where [get_accounts] lists the records [recs],
    [update_account] returns [True] exactly when some record has the given
    id.  Then the first such record is replaced by its merge with the
    patch: under every key the value of the patch if the patch has the
    key, the former value otherwise; the records before and after it are
    the same.  When no record has the id the list stays as it was. *)
Theorem update_account_merges ROOT_DIR provider account_id updates recs w :
  is_account_provider provider = true ->
  calm w (account_cache_path ROOT_DIR provider) ->
  NoDup updates.*1 ->
  run (get_accounts ROOT_DIR provider) w = Ok (JArr (JObj <$> recs)) ->
  let w' := exec (update_account ROOT_DIR provider account_id updates) w in
  run (update_account ROOT_DIR provider account_id updates) w =
    Ok (existsb (has_id account_id) recs) /\
  (forall pre r post,
     recs = (pre ++ r :: post)%list ->
     existsb (has_id account_id) pre = false -> has_id account_id r = true ->
     exists r',
       run (get_accounts ROOT_DIR provider) w' =
         Ok (JArr (JObj <$> (pre ++ r' :: post)%list)) /\
       forall k, dict_get r' k =
         match dict_get updates k with Some v => Some v | None => dict_get r k end) /\
  (existsb (has_id account_id) recs = false ->
     run (get_accounts ROOT_DIR provider) w' = Ok (JArr (JObj <$> recs))).
Proof.
  intros Hv Hcalm Hnd Hl w'.
  apply listed_stored in Hl; [|done|apply Hcalm].
  destruct (update_account_quiet ROOT_DIR provider account_id updates recs w
              Hv Hcalm Hl) as (w1 & E & Hq1 & Hst1 & Hf1).
  subst w'. unfold run at 1, exec. rewrite E. cbn [fst snd].
  split; [done|]. split.
  - intros pre r post -> Hpre Hr. exists (dict_update r updates). split.
    + by rewrite get_accounts_quiet, Hst1, patch_first_split.
    + intros k. by apply dict_get_update.
  - intros Hex. by rewrite get_accounts_quiet, Hst1, patch_first_none.
Qed.

Lemma update_account_merges_witness :
  run (update_account sample_root "twitter" "a" [("nickname", JStr "Y")])
      world_two = Ok true /\
  exists r',
    run (get_accounts sample_root "twitter")
        (exec (update_account sample_root "twitter" "a" [("nickname", JStr "Y")])
              world_two) =
      Ok (JArr [JObj r'; JObj rec_b]) /\
    dict_get r' "nickname" = Some (JStr "Y") /\
    dict_get r' "id" = Some (JStr "a").
Proof.
  destruct (update_account_merges sample_root "twitter" "a"
              [("nickname", JStr "Y")] [rec_a; rec_b] world_two)
    as (H1 & H2 & _).
  - reflexivity.
  - repeat split.
  - apply NoDup_singleton.
  - vm_compute. reflexivity.
  - split; [exact H1|].
    destruct (H2 [] rec_a [rec_b] eq_refl eq_refl eq_refl) as (r' & Hl & Hk).
    exists r'. split; [exact Hl|]. split; [exact (Hk "nickname")|exact (Hk "id")].
Defined.

(** C6.  With an [id] in the record, insertion can still raise.  The
    cache directory is there, the twitter document is not, and the [open]
    that would create the document fails: [add_account] raises [OSError]
    and writes nothing, and [add_product] does the same for its document.
    The creation, [_ensure_cache_file_exists], is called by
    [_read_cache_file] before its [try].  The same failure of [open] one
    step later, in [_write_cache_file] when the document is there, is
    caught and gives [False].  On the document whose [accounts] field is a
    number the insertion raises [TypeError]. *)
Theorem insert_with_id_raises :
  record_has_id (JObj rec_b) = true /\
  dict_get rec_b "id" = Some (JStr "b") /\
  exists_at world_creation_fault sample_twitter = false /\
  run (add_account sample_root "twitter" (JObj rec_b)) world_creation_fault =
    Raise OSError /\
  files (exec (add_account sample_root "twitter" (JObj rec_b)) world_creation_fault)
    !! sample_twitter = None /\
  run (add_product sample_root (JObj rec_c)) world_creation_fault =
    Raise OSError /\
  run (add_account sample_root "twitter" (JObj rec_b)) world_write_fault =
    Ok false /\
  run (add_account sample_root "twitter" (JObj rec_b)) world_wrong_type =
    Raise TypeError.
Proof. vm_compute. repeat split. Qed.

(** C7 fails for [clear_cache]: a name that is not recognised is no
    error; nothing is looked at or deleted and the result is [True]. *)
Lemma clear_cache_unknown_name_succeeds :
  is_account_provider "bogus" = false /\
  cleared sample_root (Some "bogus") = [] /\
  clear_cache sample_root (Some "bogus") world_one = (Ok true, world_one) /\
  run (clear_cache sample_root (Some "bogus")) world_one <> Raise ValueError.
Proof. repeat split. discriminate. Qed.

(** C7, as amended.  [get_accounts], [add_account], [remove_account] and
    [update_account] raise [ValueError] for every provider that is neither
    "twitter" nor "youtube", at once: the world is not touched. *)
Theorem invalid_provider_raises ROOT_DIR provider account account_id updates w :
  is_account_provider provider = false ->
  get_accounts ROOT_DIR provider w = (Raise ValueError, w) /\
  add_account ROOT_DIR provider account w = (Raise ValueError, w) /\
  remove_account ROOT_DIR provider account_id w = (Raise ValueError, w) /\
  update_account ROOT_DIR provider account_id updates w = (Raise ValueError, w).
Proof.
  intros Hv. unfold get_accounts, add_account, remove_account, update_account.
  by rewrite Hv.
Qed.

Lemma invalid_provider_raises_witness :
  get_accounts sample_root "afm" world_one = (Raise ValueError, world_one) /\
  remove_account sample_root "afm" "a" world_one = (Raise ValueError, world_one).
Proof.
  destruct (invalid_provider_raises sample_root "afm" (JObj rec_a) "a" []
              world_one eq_refl) as (H1 & _ & H3 & _).
  split; [exact H1|exact H3].
Defined.

(** C8. In a calm world where [get_accounts] lists the records [recs], a
    record with an [id] that is equal to no id of [recs] is inserted:
    [add_account] returns [True], and [get_accounts] then lists [recs]
    followed by that record, with the keys and values it came with. *)
Theorem add_account_round_trip ROOT_DIR provider acct recs w :
  is_account_provider provider = true ->
  calm w (account_cache_path ROOT_DIR provider) ->
  dict_has acct "id" = true ->
  run (get_accounts ROOT_DIR provider) w = Ok (JArr (JObj <$> recs)) ->
  py_in (id_of acct) (id_of <$> recs) = false ->
  run (add_account ROOT_DIR provider (JObj acct)) w = Ok true /\
  run (get_accounts ROOT_DIR provider)
      (exec (add_account ROOT_DIR provider (JObj acct)) w) =
    Ok (JArr (JObj <$> (recs ++ [acct])%list)).
Proof.
  intros Hv Hcalm Hid Hl Hnew.
  apply listed_stored in Hl; [|done|apply Hcalm].
  destruct (add_account_quiet ROOT_DIR provider acct recs w Hv Hcalm Hid Hl)
    as (w1 & E & Hq1 & Hst1 & Hf1).
  rewrite Hnew in E, Hst1.
  unfold run at 1, exec. rewrite E. cbn [fst snd]. split; [done|].
  by rewrite get_accounts_quiet, Hst1.
Qed.

Lemma add_account_round_trip_witness :
  run (add_account sample_root "twitter" (JObj rec_b)) world_one = Ok true /\
  run (get_accounts sample_root "twitter")
      (exec (add_account sample_root "twitter" (JObj rec_b)) world_one) =
    Ok (JArr [JObj rec_a; JObj rec_b]).
Proof.
  apply (add_account_round_trip sample_root "twitter" rec_b [rec_a] world_one).
  - reflexivity.
  - repeat split.
  - reflexivity.
  - vm_compute. reflexivity.
  - reflexivity.
Defined.

(** C9. A read of a document that is there but does not parse, or parses
    to something that is not an object, gives the default structure and
    leaves the files as they are, whatever system call fails on the way. *)
Theorem read_leaves_corrupt_document path default_structure c w :
  files w !! path = Some c ->
  unreadable c = true ->
  run (_read_cache_file path default_structure) w = Ok default_structure /\
  files (exec (_read_cache_file path default_structure) w) = files w /\
  dirs (exec (_read_cache_file path default_structure) w) = dirs w.
Proof.
  intros Hc Hu.
  assert (exists_at w path = true) as Hex.
  { unfold exists_at, is_file. by rewrite Hc. }
  destruct (read_existing path default_structure w Hex)
    as (d & w1 & E & _ & Hd & Hf & Hds).
  unfold run, exec. rewrite E. cbn [fst snd].
  by rewrite (Hd c Hc Hu).
Qed.

Lemma read_leaves_corrupt_document_witness :
  run (_read_cache_file sample_twitter [("accounts", JArr [])]) world_corrupt =
    Ok [("accounts", JArr [])] /\
  files (exec (_read_cache_file sample_twitter [("accounts", JArr [])])
              world_corrupt) = files world_corrupt.
Proof.
  destruct (read_leaves_corrupt_document sample_twitter [("accounts", JArr [])]
              (Garbage "{oops") world_corrupt) as (H1 & H2 & _).
  - vm_compute. reflexivity.
  - reflexivity.
  - split; [exact H1|exact H2].
Defined.

(** C10. An operation on one collection hands to the system only the
    paths of that collection's document, of its temporary file and of the
    cache directory, and leaves the files at all other paths as they are;
    the documents of the other collections are among those other paths.
    [clear_cache] with a name touches at most the document of that name;
    without a name it is the one operation that goes through the three
    documents, and in a world without faults it deletes them all. *)
Theorem operations_touch_one_document
    ROOT_DIR provider account account_id updates product target w :
  (only_touches (footprint (account_cache_path ROOT_DIR provider)) w
     (exec (get_accounts ROOT_DIR provider) w) /\
   only_touches (footprint (account_cache_path ROOT_DIR provider)) w
     (exec (add_account ROOT_DIR provider account) w) /\
   only_touches (footprint (account_cache_path ROOT_DIR provider)) w
     (exec (remove_account ROOT_DIR provider account_id) w) /\
   only_touches (footprint (account_cache_path ROOT_DIR provider)) w
     (exec (update_account ROOT_DIR provider account_id updates) w)) /\
  (only_touches (footprint (get_afm_cache_path ROOT_DIR)) w
     (exec (get_products ROOT_DIR) w) /\
   only_touches (footprint (get_afm_cache_path ROOT_DIR)) w
     (exec (add_product ROOT_DIR product) w)) /\
  (only_touches (cleared ROOT_DIR target) w
     (exec (clear_cache ROOT_DIR target) w) /\
   (forall name, exists p, cleared ROOT_DIR (Some name) ⊆ [p]) /\
   cleared ROOT_DIR None = documents ROOT_DIR /\
   (faults w = [] ->
    (forall q, q ∈ documents ROOT_DIR -> is_dir (dirs w) q = false) ->
    forall q, q ∈ documents ROOT_DIR ->
      files (exec (clear_cache ROOT_DIR None) w) !! q = None)) /\
  (forall p q, p ∈ documents ROOT_DIR -> q ∈ documents ROOT_DIR -> q <> p ->
     q ∉ footprint p).
Proof.
  split; [|split; [|split]].
  - split; [|split; [|split]].
    + apply get_accounts_touches.
    + apply add_account_touches.
    + apply remove_account_touches.
    + apply update_account_touches.
  - split; [apply get_products_touches|apply add_product_touches].
  - split; [apply clear_cache_touches|]. split; [|split; [done|]].
    + intros name. unfold cleared.
      destruct (String.eqb name "twitter"); [by eexists|].
      destruct (String.eqb name "youtube"); [by eexists|].
      destruct (String.eqb name "afm"); [by eexists|].
      exists "". apply list_subseteq_nil.
    + intros Hq Hd. by apply clear_all_quiet.
  - intros p q. apply documents_apart.
Qed.

Lemma operations_touch_one_document_witness :
  files (exec (add_account sample_root "twitter" (JObj rec_b)) world_one)
    !! sample_youtube = files world_one !! sample_youtube.
Proof.
  destruct (operations_touch_one_document sample_root "twitter" (JObj rec_b)
              "a" [] (JObj rec_b) None world_one)
    as ((_ & Hadd & _) & _ & _ & Hapart).
  apply (proj1 Hadd). apply Hapart.
  - unfold documents. rewrite !elem_of_cons. left. reflexivity.
  - unfold documents. rewrite !elem_of_cons. right. left. reflexivity.
  - discriminate.
Defined.

(** ** Further properties of the module *)

Global Instance settles_preorder path : PreOrder (settles path).
Proof.
  split.
  - intros w. split; auto.
  - intros w1 w2 w3 [Hf1 Hd1] [Hf2 Hd2]. split; [auto|].
    intros q Hq. destruct (Hd2 q Hq) as [?|Hq2]; auto.
Qed.

Ltac settle_prim :=
  intros [? ? ? ?]; unfold exec; mrun_all;
  (split; cbn [faults dirs];
   [ try done
   | intros ? ?; rewrite ?is_dir_union_singleton in *; intuition auto ]).

Section Settles.
Context (path : string).

Lemma os_path_exists_settles p : preserves (settles path) (os_path_exists p).
Proof. settle_prim. Qed.

Lemma os_makedirs_settles :
  preserves (settles path) (os_makedirs (os_path_dirname path)).
Proof. settle_prim. Qed.

Lemma open_w_settles p : preserves (settles path) (open_w p).
Proof. settle_prim. Qed.

Lemma json_dump_settles p data : preserves (settles path) (json_dump p data).
Proof. settle_prim. Qed.

Lemma open_r_settles p : preserves (settles path) (open_r p).
Proof. settle_prim. Qed.

Lemma json_load_settles c : preserves (settles path) (json_load c).
Proof. destruct c; settle_prim. Qed.

Lemma os_remove_settles p : preserves (settles path) (os_remove p).
Proof. settle_prim. Qed.

Lemma os_rename_settles p p' : preserves (settles path) (os_rename p p').
Proof. settle_prim. Qed.
End Settles.

Ltac settle :=
  repeat first
    [ frame_step
    | apply os_path_exists_settles
    | apply os_makedirs_settles
    | apply open_w_settles
    | apply json_dump_settles
    | apply open_r_settles
    | apply json_load_settles
    | apply os_remove_settles
    | apply os_rename_settles ].

Lemma read_settles path dflt :
  preserves (settles path) (_read_cache_file path dflt).
Proof. unfold _read_cache_file, _ensure_cache_file_exists. settle. Qed.

Lemma write_settles path data :
  preserves (settles path) (_write_cache_file path data).
Proof. unfold _write_cache_file. settle. Qed.

Ltac settle_op :=
  repeat first [ apply read_settles | apply write_settles | frame_step ].

Lemma get_accounts_settles ROOT_DIR provider :
  preserves (settles (account_cache_path ROOT_DIR provider))
    (get_accounts ROOT_DIR provider).
Proof. unfold get_accounts. settle_op. Qed.

Lemma add_account_settles ROOT_DIR provider account :
  preserves (settles (account_cache_path ROOT_DIR provider))
    (add_account ROOT_DIR provider account).
Proof. unfold add_account. settle_op. Qed.

Lemma remove_account_settles ROOT_DIR provider account_id :
  preserves (settles (account_cache_path ROOT_DIR provider))
    (remove_account ROOT_DIR provider account_id).
Proof. unfold remove_account. settle_op. Qed.

Lemma update_account_settles ROOT_DIR provider account_id updates :
  preserves (settles (account_cache_path ROOT_DIR provider))
    (update_account ROOT_DIR provider account_id updates).
Proof. unfold update_account. settle_op. Qed.

Lemma clear_cache_settles ROOT_DIR path provider :
  preserves (settles path) (clear_cache ROOT_DIR provider).
Proof. unfold clear_cache, remove_if_exists. settle. Qed.

Lemma calm_settles path w w' :
  proper_path path -> settles path w w' -> calm w path -> calm w' path.
Proof.
  intros Hp [Hf Hd] Hc. eapply calm_after_read; eauto. apply Hf, Hc.
Qed.

Lemma add_product_quiet ROOT_DIR prod recs w :
  let path := get_afm_cache_path ROOT_DIR in
  let dup := py_in (id_of prod) (id_of <$> recs) in
  calm w path ->
  dict_has prod "id" = true ->
  stored (files w !! path) "products" = JArr (JObj <$> recs) ->
  exists w',
    add_product ROOT_DIR (JObj prod) w = (Ok (negb dup), w') /\
    faults w' = [] /\
    stored (files w' !! path) "products" =
      JArr (JObj <$> (if dup then recs else recs ++ [prod])%list) /\
    (dup = true -> is_Some (files w !! path) -> files w' = files w).
Proof.
  intros path dup Hcalm Hid Hst. unfold add_product. rewrite Hid. cbn [negb].
  fold path.
  destruct (read_field_quiet ROOT_DIR path "products" w
              (afm_path_document ROOT_DIR) (proj1 Hcalm))
    as (w1 & E & Hq1 & Hst1 & Hf1 & Hc1).
  rewrite (bind_ok _ _ _ _ _ E). fold (stored (files w !! path) "products").
  rewrite Hst. cbn [py_iter lift]. mred.
  rewrite comprehension_ids. mred. fold (id_of prod). fold dup.
  destruct dup eqn:Hdup; cbn [negb]; mred.
  - exists w1. split; [done|]. split; [done|]. split; [|auto].
    by rewrite Hst1, Hst.
  - destruct (write_quiet path
      (dict_set (doc_dict (files w !! path) [("products", JArr [])]) "products"
         (JArr ((JObj <$> recs) ++ [JObj prod])))
      w1 (Hc1 Hcalm)) as (w2 & E2 & Hq2 & Hf2 & Hd2).
    cbn [py_append]. rewrite E2. exists w2. split; [done|]. split; [done|].
    split; [|done].
    rewrite Hf2, stored_written. by rewrite fmap_app.
Qed.

(** X1.  [add_product] in a calm world where [get_products] lists [recs]:
    the result is [True] exactly when no listed product has an id equal to
    the new one; then [get_products] lists [recs] followed by the product;
    otherwise it lists [recs] as before and an existing document is not
    written. *)
Theorem add_product_appends_or_rejects ROOT_DIR prod recs w :
  calm w (get_afm_cache_path ROOT_DIR) ->
  dict_has prod "id" = true ->
  run (get_products ROOT_DIR) w = Ok (JArr (JObj <$> recs)) ->
  run (add_product ROOT_DIR (JObj prod)) w =
    Ok (negb (py_in (id_of prod) (id_of <$> recs))) /\
  run (get_products ROOT_DIR) (exec (add_product ROOT_DIR (JObj prod)) w) =
    Ok (JArr (JObj <$>
          (if py_in (id_of prod) (id_of <$> recs) then recs
           else recs ++ [prod])%list)) /\
  (py_in (id_of prod) (id_of <$> recs) = true ->
   is_Some (files w !! get_afm_cache_path ROOT_DIR) ->
   files (exec (add_product ROOT_DIR (JObj prod)) w) = files w).
Proof.
  intros Hcalm Hid Hl.
  rewrite get_products_quiet in Hl by apply Hcalm. injection Hl as Hl.
  destruct (add_product_quiet ROOT_DIR prod recs w Hcalm Hid Hl)
    as (w1 & E & Hq1 & Hst1 & Hf1).
  unfold run at 1, exec. rewrite E. cbn [fst snd].
  split; [done|]. split; [|done].
  by rewrite get_products_quiet, Hst1.
Qed.

Lemma get_accounts_reads ROOT_DIR provider w :
  is_account_provider provider = true ->
  exec (get_accounts ROOT_DIR provider) w =
    exec (_read_cache_file (account_cache_path ROOT_DIR provider)
            [("accounts", JArr [])]) w /\
  run (get_accounts ROOT_DIR provider) w =
    rbind (run (_read_cache_file (account_cache_path ROOT_DIR provider)
                  [("accounts", JArr [])]) w)
      (fun data => Ok (default (JArr []) (dict_get data "accounts"))).
Proof.
  intros Hv. unfold get_accounts, run, exec, bind. rewrite Hv. cbn [negb].
  by destruct (_read_cache_file _ _ w) as [[d|e] w1].
Qed.

Lemma get_products_reads ROOT_DIR w :
  exec (get_products ROOT_DIR) w =
    exec (_read_cache_file (get_afm_cache_path ROOT_DIR)
            [("products", JArr [])]) w /\
  run (get_products ROOT_DIR) w =
    rbind (run (_read_cache_file (get_afm_cache_path ROOT_DIR)
                  [("products", JArr [])]) w)
      (fun data => Ok (default (JArr []) (dict_get data "products"))).
Proof.
  unfold get_products, run, exec, bind.
  by destruct (_read_cache_file _ _ w) as [[d|e] w1].
Qed.

Lemma first_listing ROOT_DIR provider w :
  is_account_provider provider = true ->
  faults w = [] ->
  exists_at w (account_cache_path ROOT_DIR provider) = false ->
  run (get_accounts ROOT_DIR provider) w = Ok (JArr []) /\
  files (exec (get_accounts ROOT_DIR provider) w) =
    <[account_cache_path ROOT_DIR provider :=
        Doc (JObj [("accounts", JArr [])])]> (files w) /\
  exists_at (exec (get_accounts ROOT_DIR provider) w)
    (os_path_dirname (account_cache_path ROOT_DIR provider)) = true.
Proof.
  intros Hv Hq Hex.
  destruct (get_accounts_reads ROOT_DIR provider w Hv) as [-> ->].
  pose proof (document_dirname_ne ROOT_DIR _
                (account_path_document ROOT_DIR provider)) as Hne.
  set (path := account_cache_path ROOT_DIR provider) in *.
  destruct w as [fs ds fl tr]. cbn [faults] in Hq. subst fl.
  unfold exists_at in Hex. cbn [files dirs] in Hex.
  apply orb_false_elim in Hex as [Hf Hd].
  assert (is_dir ({[os_path_dirname path]} ∪ ds) path = false) as Hd'.
  { apply not_true_is_false. rewrite is_dir_union_singleton. intros [?|?]; congruence. }
  assert (fs !! path = None) as Hnone.
  { unfold is_file in Hf. by destruct (fs !! path). }
  unfold _read_cache_file, _ensure_cache_file_exists, exists_at.
  mred. rewrite Hf, Hd. cbn [orb negb]. mred.
  destruct (is_file fs (os_path_dirname path) || is_dir ds (os_path_dirname path))
    eqn:Hdir;
    repeat (progress (mred; rewrite ?Hdir, ?Hd, ?Hd', ?lookup_insert_eq));
    (split; [done|]); (split; [apply insert_insert_eq|]).
  - unfold is_file in *. rewrite !lookup_insert_ne by done. done.
  - rewrite (proj2 (is_dir_union_singleton _ _ _)) by auto. apply orb_true_r.
Qed.


(** X2.  The first listing of a collection without a document, in a world
    without faults: the result is the empty list, the document is created
    with the default structure, and its directory exists afterwards. *)
Theorem get_accounts_creates_document ROOT_DIR provider w :
  is_account_provider provider = true ->
  faults w = [] ->
  exists_at w (account_cache_path ROOT_DIR provider) = false ->
  run (get_accounts ROOT_DIR provider) w = Ok (JArr []) /\
  files (exec (get_accounts ROOT_DIR provider) w) =
    <[account_cache_path ROOT_DIR provider :=
        Doc (JObj [("accounts", JArr [])])]> (files w) /\
  exists_at (exec (get_accounts ROOT_DIR provider) w)
    (os_path_dirname (account_cache_path ROOT_DIR provider)) = true.
Proof. apply first_listing. Qed.

(** X3.  Listing is idempotent in a world without faults: a second
    [get_accounts] gives the result of the first and changes neither a
    file nor a directory. *)
Theorem get_accounts_idempotent ROOT_DIR provider w :
  is_account_provider provider = true ->
  faults w = [] ->
  run (get_accounts ROOT_DIR provider) (exec (get_accounts ROOT_DIR provider) w) =
    run (get_accounts ROOT_DIR provider) w /\
  files (exec (get_accounts ROOT_DIR provider)
          (exec (get_accounts ROOT_DIR provider) w)) =
    files (exec (get_accounts ROOT_DIR provider) w) /\
  dirs (exec (get_accounts ROOT_DIR provider)
          (exec (get_accounts ROOT_DIR provider) w)) =
    dirs (exec (get_accounts ROOT_DIR provider) w).
Proof.
  intros Hv Hq.
  pose proof (document_dirname_ne ROOT_DIR _
                (account_path_document ROOT_DIR provider)) as Hne.
  destruct (get_accounts_reads ROOT_DIR provider w Hv) as [Hw1 _].
  set (path := account_cache_path ROOT_DIR provider) in *.
  destruct (read_quiet path [("accounts", JArr [])] w Hq Hne)
    as (w1 & E & Hq1 & Hf1 & Hd1 & _).
  assert (exec (get_accounts ROOT_DIR provider) w = w1) as ->.
  { rewrite Hw1. unfold exec. by rewrite E. }
  assert (exists_at w1 path = true) as Hex1.
  { unfold exists_at, is_file in *. rewrite Hf1.
    destruct (files w !! path) as [c|] eqn:Hc; cbn [orb] in *.
    - by rewrite Hc.
    - destruct (is_dir (dirs w) path) eqn:Hd; cbn [orb] in *.
      + by rewrite Hd1, Hd, orb_true_r.
      + by rewrite lookup_insert_eq. }
  split.
  - rewrite !get_accounts_quiet by done. fold path. unfold stored.
    by rewrite (read_quiet_lookup _ _ _ _ Hf1).
  - destruct (get_accounts_reads ROOT_DIR provider w1 Hv) as [-> _].
    destruct (read_existing path [("accounts", JArr [])] w1 Hex1)
      as (d & w2 & E2 & _ & _ & Hf2 & Hd2).
    fold path. unfold exec. rewrite E2. done.
Qed.

(** X4.  Once the document exists, whatever it holds, listing never
    raises and changes neither a file nor a directory, under every
    schedule of faults; the same for the products. *)
Theorem listing_is_read_only ROOT_DIR provider w :
  (is_account_provider provider = true ->
   exists_at w (account_cache_path ROOT_DIR provider) = true ->
   (exists v, run (get_accounts ROOT_DIR provider) w = Ok v) /\
   files (exec (get_accounts ROOT_DIR provider) w) = files w /\
   dirs (exec (get_accounts ROOT_DIR provider) w) = dirs w) /\
  (exists_at w (get_afm_cache_path ROOT_DIR) = true ->
   (exists v, run (get_products ROOT_DIR) w = Ok v) /\
   files (exec (get_products ROOT_DIR) w) = files w /\
   dirs (exec (get_products ROOT_DIR) w) = dirs w).
Proof.
  split.
  - intros Hv Hex. destruct (get_accounts_reads ROOT_DIR provider w Hv) as [-> ->].
    destruct (read_existing _ [("accounts", JArr [])] w Hex)
      as (d & w1 & E & _ & _ & Hf & Hd).
    unfold run, exec. rewrite E. cbn [fst snd rbind]. eauto.
  - intros Hex. destruct (get_products_reads ROOT_DIR w) as [-> ->].
    destruct (read_existing _ [("products", JArr [])] w Hex)
      as (d & w1 & E & _ & _ & Hf & Hd).
    unfold run, exec. rewrite E. cbn [fst snd rbind]. eauto.
Qed.

(** X5.  A document that does not parse, is not an object, or is an object
    without the [accounts] key lists as the empty list, under every
    schedule of faults. *)
Theorem get_accounts_empty_on_bad_document ROOT_DIR provider c w :
  is_account_provider provider = true ->
  files w !! account_cache_path ROOT_DIR provider = Some c ->
  unreadable c = true \/
    (exists d, c = Doc (JObj d) /\ dict_has d "accounts" = false) ->
  run (get_accounts ROOT_DIR provider) w = Ok (JArr []).
Proof.
  intros Hv Hc Hbad.
  destruct (get_accounts_reads ROOT_DIR provider w Hv) as [_ ->].
  assert (exists_at w (account_cache_path ROOT_DIR provider) = true) as Hex.
  { unfold exists_at, is_file. by rewrite Hc. }
  destruct (read_existing _ [("accounts", JArr [])] w Hex)
    as (d & w1 & E & Hd & Hu & _).
  unfold run. rewrite E. cbn [fst rbind].
  destruct Hbad as [Hbad|(d' & -> & Hd')].
  - by rewrite (Hu c Hc Hbad).
  - destruct Hd as [->|Hd]; [done|].
    rewrite Hc in Hd. injection Hd as ->.
    unfold dict_has in Hd'. by destruct (dict_get d "accounts").
Qed.

Lemma read_creation_fails path dflt w fl :
  exists_at w path = false -> faults w = true :: fl ->
  run (_read_cache_file path dflt) w = Raise OSError /\
  files (exec (_read_cache_file path dflt) w) = files w.
Proof.
  destruct w as [fs ds fl' tr]. unfold exists_at. cbn [files dirs faults].
  intros Hex ->.
  unfold _read_cache_file, _ensure_cache_file_exists. mred. rewrite Hex. mred.
  destruct (is_file fs (os_path_dirname path) || is_dir ds (os_path_dirname path));
    mred; done.
Qed.

(** X6.  The creation of a missing document is not guarded: when the
    document is not there and the first system call of its creation fails,
    every operation on the collection raises [OSError] and no file is
    written. *)
Theorem missing_document_creation_raises
    ROOT_DIR provider acct account_id updates w fl :
  is_account_provider provider = true ->
  dict_has acct "id" = true ->
  exists_at w (account_cache_path ROOT_DIR provider) = false ->
  faults w = true :: fl ->
  (run (get_accounts ROOT_DIR provider) w = Raise OSError /\
   files (exec (get_accounts ROOT_DIR provider) w) = files w) /\
  (run (add_account ROOT_DIR provider (JObj acct)) w = Raise OSError /\
   files (exec (add_account ROOT_DIR provider (JObj acct)) w) = files w) /\
  (run (remove_account ROOT_DIR provider account_id) w = Raise OSError /\
   files (exec (remove_account ROOT_DIR provider account_id) w) = files w) /\
  (run (update_account ROOT_DIR provider account_id updates) w = Raise OSError /\
   files (exec (update_account ROOT_DIR provider account_id updates) w) = files w).
Proof.
  intros Hv Hid Hex Hfl.
  destruct (read_creation_fails _ [("accounts", JArr [])] w fl Hex Hfl) as [Hr Hf].
  unfold run, exec in Hr, Hf.
  destruct (_read_cache_file _ _ w) as [r w1] eqn:E. cbn [fst snd] in Hr, Hf.
  subst r.
  unfold get_accounts, add_account, remove_account, update_account, run, exec.
  rewrite Hv, Hid. cbn [negb]. rewrite !(bind_raise _ _ _ _ _ E). done.
Qed.

Ltac lookups :=
  repeat first
    [ rewrite lookup_insert_eq | rewrite lookup_delete_eq
    | rewrite lookup_insert_ne by done | rewrite lookup_delete_ne by done ].

Ltac lookups_in :=
  repeat match goal with
  | H : context [_ !! _] |- _ =>
      progress (first
        [ rewrite lookup_insert_eq in H | rewrite lookup_delete_eq in H
        | rewrite lookup_insert_ne in H by done
        | rewrite lookup_delete_ne in H by done ])
  end; simplify_eq.

(** X7.  What a write can leave, under every schedule of faults:
    [_write_cache_file] returns a boolean; when it is [True] the document
    holds the new data and the temporary file is gone; when it is [False]
    the document is as before or is missing; in no case is the document a
    text that was written in part, and files at other paths are as
    before. *)
Theorem write_leaves_old_new_or_nothing path data w :
  exists b,
    run (_write_cache_file path data) w = Ok b /\
    (if b
     then files (exec (_write_cache_file path data) w) !! path =
            Some (Doc (JObj data)) /\
          files (exec (_write_cache_file path data) w) !! (path +:+ ".tmp") = None
     else files (exec (_write_cache_file path data) w) !! path = files w !! path \/
          files (exec (_write_cache_file path data) w) !! path = None) /\
    (forall q, q <> path -> q <> path +:+ ".tmp" ->
       files (exec (_write_cache_file path data) w) !! q = files w !! q).
Proof.
  pose proof (tmp_ne path) as Hne.
  destruct w as [fs ds fl tr]. unfold _write_cache_file.
  mrun_all; lookups_in; eexists; (split; [reflexivity|]); cbn [files];
    (split; [|intros q Hq1 Hq2; lookups; done]);
    try (split; lookups; done);
    try (left; lookups; done); try (right; lookups; done).
Qed.

(** One step of [clear_cache], taken or not: what is missing stays missing,
    and a step that is taken and does not raise leaves no file at [p]. *)
Lemma clear_step (b : bool) p w :
  (forall q, files w !! q = None ->
     files (exec (if b then remove_if_exists p else ret tt) w) !! q = None) /\
  (b = true -> run (if b then remove_if_exists p else ret tt) w = Ok tt ->
   files (exec (if b then remove_if_exists p else ret tt) w) !! p = None).
Proof.
  destruct w as [fs ds fl tr]. destruct b; [|by split].
  unfold is_file. mrun_all; cbn [files]; (split; [|intros _ ?]); try done.
  - intros q Hq. destruct (decide (p = q)) as [->|]; lookups; done.
  - by lookups.
  - intros q Hq. destruct (decide (p = q)) as [->|]; lookups; done.
  - by lookups.
  - unfold is_file in *. destruct (fs !! p); [done|]. done.
Qed.

Lemma cleared_selected ROOT_DIR target q :
  q ∈ cleared ROOT_DIR target ->
  let selected name :=
    match target with Some p => String.eqb p name | None => true end in
  (q = get_twitter_cache_path ROOT_DIR /\ selected "twitter" = true) \/
  (q = get_youtube_cache_path ROOT_DIR /\ selected "youtube" = true) \/
  (q = get_afm_cache_path ROOT_DIR /\ selected "afm" = true).
Proof.
  unfold cleared, documents. destruct target as [p|]; cbn zeta.
  - destruct (String.eqb p "twitter") eqn:E1;
      [intros ->%list_elem_of_singleton; auto|].
    destruct (String.eqb p "youtube") eqn:E2;
      [intros ->%list_elem_of_singleton; auto|].
    destruct (String.eqb p "afm") eqn:E3;
      [intros ->%list_elem_of_singleton; auto|].
    by intros ?%elem_of_nil.
  - rewrite !elem_of_cons, elem_of_nil. intuition auto.
Qed.

(** X8.  [clear_cache] never raises, under every schedule of faults, and
    it returns [True] only when none of the documents it was asked to
    delete is left. *)
Theorem clear_cache_true_means_deleted ROOT_DIR target w :
  exists b,
    run (clear_cache ROOT_DIR target) w = Ok b /\
    (b = true ->
     forall q, q ∈ cleared ROOT_DIR target ->
       files (exec (clear_cache ROOT_DIR target) w) !! q = None).
Proof.
  unfold clear_cache. cbv zeta.
  set (selected := fun name : string =>
         match target with Some p => String.eqb p name | None => true end).
  change (match target with Some p => String.eqb p "twitter" | None => true end)
    with (selected "twitter").
  change (match target with Some p => String.eqb p "youtube" | None => true end)
    with (selected "youtube").
  change (match target with Some p => String.eqb p "afm" | None => true end)
    with (selected "afm").
  pose proof (clear_step (selected "twitter") (get_twitter_cache_path ROOT_DIR) w)
    as [K1 D1].
  unfold run, exec, try_except, bind in *.
  set (s1 := if selected "twitter"
             then remove_if_exists (get_twitter_cache_path ROOT_DIR)
             else ret tt) in *.
  destruct (s1 w) as [[[]|e1] w1];
    [|exists false; split; [done|discriminate]].
  pose proof (clear_step (selected "youtube") (get_youtube_cache_path ROOT_DIR) w1)
    as [K2 D2].
  unfold run, exec in *.
  set (s2 := if selected "youtube"
             then remove_if_exists (get_youtube_cache_path ROOT_DIR)
             else ret tt) in *.
  destruct (s2 w1) as [[[]|e2] w2];
    [|exists false; split; [done|discriminate]].
  pose proof (clear_step (selected "afm") (get_afm_cache_path ROOT_DIR) w2)
    as [K3 D3].
  unfold run, exec in *.
  set (s3 := if selected "afm"
             then remove_if_exists (get_afm_cache_path ROOT_DIR)
             else ret tt) in *.
  destruct (s3 w2) as [[[]|e3] w3];
    [|exists false; split; [done|discriminate]].
  exists true. split; [done|]. intros _ q Hq. cbn [fst snd] in *.
  apply cleared_selected in Hq. fold selected in Hq.
  destruct Hq as [[-> Hs]|[[-> Hs]|[-> Hs]]]; auto.
Qed.

(** X9.  A deletion that fails ends the clearing: when the twitter
    document is there and its removal fails, [clear_cache()] returns
    [False] and no file is deleted, the other documents included. *)
Theorem clear_cache_stops_at_failure ROOT_DIR c w fl :
  files w !! get_twitter_cache_path ROOT_DIR = Some c ->
  faults w = true :: fl ->
  run (clear_cache ROOT_DIR None) w = Ok false /\
  files (exec (clear_cache ROOT_DIR None) w) = files w.
Proof.
  destruct w as [fs ds fl' tr]. cbn [files faults]. intros Hc ->.
  unfold clear_cache. mred. unfold is_file. rewrite Hc. cbn [orb]. mred. done.
Qed.

Lemma clear_one_quiet ROOT_DIR provider w :
  is_account_provider provider = true ->
  calm w (account_cache_path ROOT_DIR provider) ->
  exists w1,
    clear_cache ROOT_DIR (Some provider) w = (Ok true, w1) /\
    faults w1 = [] /\ dirs w1 = dirs w /\
    files w1 = delete (account_cache_path ROOT_DIR provider) (files w).
Proof.
  intros Hv (Hq & Hd & _). destruct w as [fs ds fl tr]. cbn [faults dirs] in *.
  subst fl. unfold is_account_provider in Hv.
  apply orb_prop in Hv as [Hv|Hv]; apply String.eqb_eq in Hv; subst provider;
    unfold clear_cache, account_cache_path in *;
    cbn [String.eqb Ascii.eqb Bool.eqb] in *; mred; unfold is_file;
    rewrite Hd, orb_false_r.
  - destruct (fs !! get_twitter_cache_path ROOT_DIR) eqn:Hc; mred;
      rewrite ?Hc; mred; eexists; (split; [reflexivity|]); cbn [files dirs faults];
      repeat split. by rewrite delete_id.
  - destruct (fs !! get_youtube_cache_path ROOT_DIR) eqn:Hc; mred;
      rewrite ?Hc; mred; eexists; (split; [reflexivity|]); cbn [files dirs faults];
      repeat split. by rewrite delete_id.
Qed.

(** X10.  Clearing one collection and listing it again, in a calm world:
    [clear_cache] returns [True] and the document is deleted, not emptied;
    the next [get_accounts] gives the empty list and creates the document
    anew with the default structure. *)
Theorem clear_then_list ROOT_DIR provider w :
  is_account_provider provider = true ->
  calm w (account_cache_path ROOT_DIR provider) ->
  run (clear_cache ROOT_DIR (Some provider)) w = Ok true /\
  files (exec (clear_cache ROOT_DIR (Some provider)) w)
    !! account_cache_path ROOT_DIR provider = None /\
  run (get_accounts ROOT_DIR provider)
      (exec (clear_cache ROOT_DIR (Some provider)) w) = Ok (JArr []) /\
  files (exec (get_accounts ROOT_DIR provider)
          (exec (clear_cache ROOT_DIR (Some provider)) w))
    !! account_cache_path ROOT_DIR provider =
    Some (Doc (JObj [("accounts", JArr [])])).
Proof.
  intros Hv Hcalm.
  destruct (clear_one_quiet ROOT_DIR provider w Hv Hcalm)
    as (w1 & E & Hq1 & Hd1 & Hf1).
  assert (exec (clear_cache ROOT_DIR (Some provider)) w = w1) as ->
    by (unfold exec; by rewrite E).
  assert (run (clear_cache ROOT_DIR (Some provider)) w = Ok true) as ->
    by (unfold run; by rewrite E).
  assert (exists_at w1 (account_cache_path ROOT_DIR provider) = false) as Hex.
  { unfold exists_at, is_file. rewrite Hf1, lookup_delete_eq, Hd1.
    apply Hcalm. }
  destruct (first_listing ROOT_DIR provider w1 Hv Hq1 Hex) as (Hr & Hf & _).
  split; [done|]. split; [by rewrite Hf1, lookup_delete_eq|].
  split; [done|]. by rewrite Hf, lookup_insert_eq.
Qed.

Lemma read_open_fails path dflt w fl :
  exists_at w path = true -> faults w = true :: fl ->
  exists w1, _read_cache_file path dflt w = (Ok dflt, w1) /\
    faults w1 = fl /\ files w1 = files w /\ dirs w1 = dirs w.
Proof.
  destruct w as [fs ds fl' tr]. unfold exists_at. cbn [files dirs faults].
  intros Hex ->.
  unfold _read_cache_file, _ensure_cache_file_exists. mred. rewrite Hex. mred.
  by eexists.
Qed.

(** X11.  A read that fails is taken for an empty collection.  When the
    document is there but cannot be opened for reading, and the calls after
    that go through: [add_account] returns [True] and writes a document
    that holds the new record only, whatever the document held; and
    [remove_account] returns [False] and leaves the files. *)
Theorem failed_read_is_taken_for_empty ROOT_DIR provider acct account_id c w :
  is_account_provider provider = true ->
  dict_has acct "id" = true ->
  files w !! account_cache_path ROOT_DIR provider = Some c ->
  faults w = [true] ->
  is_dir (dirs w) (account_cache_path ROOT_DIR provider) = false ->
  is_dir (dirs w) (account_cache_path ROOT_DIR provider +:+ ".tmp") = false ->
  (run (add_account ROOT_DIR provider (JObj acct)) w = Ok true /\
   files (exec (add_account ROOT_DIR provider (JObj acct)) w)
     !! account_cache_path ROOT_DIR provider =
     Some (Doc (JObj [("accounts", JArr [JObj acct])]))) /\
  (run (remove_account ROOT_DIR provider account_id) w = Ok false /\
   files (exec (remove_account ROOT_DIR provider account_id) w) = files w).
Proof.
  intros Hv Hid Hc Hfl Hd Ht.
  set (path := account_cache_path ROOT_DIR provider) in *.
  assert (exists_at w path = true) as Hex.
  { unfold exists_at, is_file. by rewrite Hc. }
  destruct (read_open_fails path [("accounts", JArr [])] w [] Hex Hfl)
    as (w1 & E & Hq1 & Hf1 & Hd1).
  assert (calm w1 path) as Hcalm by (unfold calm; by rewrite Hq1, Hd1).
  split.
  - unfold add_account, run, exec. rewrite Hv, Hid. cbn [negb]. fold path.
    rewrite (bind_ok _ _ _ _ _ E). cbn [dict_get String.eqb Ascii.eqb Bool.eqb].
    cbn [default id py_iter lift]. mred.
    cbn [comprehension py_in existsb py_append]. mred.
    cbn [app dict_set String.eqb Ascii.eqb Bool.eqb].
    destruct (write_quiet path [("accounts", JArr [JObj acct])] w1 Hcalm)
      as (w2 & E2 & _ & Hf2 & _).
    rewrite E2. cbn [fst snd]. by rewrite Hf2, lookup_insert_eq.
  - unfold remove_account, run, exec. rewrite Hv. cbn [negb]. fold path.
    rewrite (bind_ok _ _ _ _ _ E). cbn [dict_get String.eqb Ascii.eqb Bool.eqb].
    cbn [default id py_len py_iter lift]. mred. done.
Qed.

Lemma absent_id_no_match s recs :
  JStr s ∉ id_of <$> recs -> existsb (has_id s) recs = false.
Proof.
  intros Hs. apply not_true_is_false. intros (r & Hr & Hid)%existsb_exists.
  apply Hs. apply py_eq_str in Hid. rewrite <- Hid.
  apply list_elem_of_fmap. exists r. split; [done|]. by apply list_elem_of_In.
Qed.

Lemma add_account_calm ROOT_DIR provider account w :
  calm w (account_cache_path ROOT_DIR provider) ->
  calm (exec (add_account ROOT_DIR provider account) w)
    (account_cache_path ROOT_DIR provider).
Proof.
  apply calm_settles; [|apply add_account_settles].
  apply (document_proper ROOT_DIR), account_path_document.
Qed.

(** X12.  Removal undoes insertion.  In a calm world where [get_accounts]
    lists [recs], none with the id [s]: after [add_account] of a record
    with the id [s] and [remove_account] of [s], both returning [True],
    [get_accounts] lists [recs] again. *)
Theorem remove_undoes_add ROOT_DIR provider acct s recs w :
  is_account_provider provider = true ->
  calm w (account_cache_path ROOT_DIR provider) ->
  run (get_accounts ROOT_DIR provider) w = Ok (JArr (JObj <$> recs)) ->
  dict_get acct "id" = Some (JStr s) ->
  JStr s ∉ id_of <$> recs ->
  run (add_account ROOT_DIR provider (JObj acct)) w = Ok true /\
  run (remove_account ROOT_DIR provider s)
      (exec (add_account ROOT_DIR provider (JObj acct)) w) = Ok true /\
  run (get_accounts ROOT_DIR provider)
      (exec (remove_account ROOT_DIR provider s)
         (exec (add_account ROOT_DIR provider (JObj acct)) w)) =
    Ok (JArr (JObj <$> recs)).
Proof.
  intros Hv Hcalm Hl Hs Hnew.
  apply listed_stored in Hl; [|done|apply Hcalm].
  assert (dict_has acct "id" = true) as Hid by (unfold dict_has; by rewrite Hs).
  assert (id_of acct = JStr s) as Hids by (unfold id_of; by rewrite Hs).
  assert (py_in (id_of acct) (id_of <$> recs) = false) as Hin.
  { rewrite Hids. apply not_true_is_false. by rewrite py_in_str. }
  pose proof (add_account_calm ROOT_DIR provider (JObj acct) w Hcalm) as Hcalm1.
  destruct (add_account_quiet ROOT_DIR provider acct recs w Hv Hcalm Hid Hl)
    as (w1 & E & Hq1 & Hst1 & _).
  rewrite Hin in E, Hst1.
  assert (exec (add_account ROOT_DIR provider (JObj acct)) w = w1) as Hw1
    by (unfold exec; by rewrite E).
  rewrite Hw1 in *.
  destruct (remove_account_quiet ROOT_DIR provider s (recs ++ [acct]) w1
              Hv Hcalm1 Hst1) as (w2 & E2 & Hq2 & Hst2 & _).
  assert (existsb (has_id s) (recs ++ [acct]) = true) as Hex.
  { rewrite existsb_app. cbn [existsb]. unfold has_id at 2. rewrite Hids.
    cbn [py_eq]. by rewrite String.eqb_refl, orb_true_r. }
  rewrite Hex in E2.
  split; [unfold run; by rewrite E|]. split; [unfold run; by rewrite E2|].
  unfold exec at 1. rewrite E2. cbn [snd].
  rewrite get_accounts_quiet, Hst2 by done. do 2 f_equal.
  rewrite List.filter_app, filter_none by (by apply absent_id_no_match).
  cbn [List.filter]. unfold has_id. rewrite Hids. cbn [py_eq].
  by rewrite String.eqb_refl, app_nil_r.
Qed.

(** X13.  Accounts with distinct ids add up.  In a calm world where
    [get_accounts] lists [recs], adding one after the other records with
    string ids that are pairwise distinct and not among the ids of [recs]
    does not raise, and [get_accounts] then lists [recs] followed by the
    records, in the order in which they were added. *)
Theorem added_accounts_persist ROOT_DIR provider news recs w :
  is_account_provider provider = true ->
  calm w (account_cache_path ROOT_DIR provider) ->
  run (get_accounts ROOT_DIR provider) w = Ok (JArr (JObj <$> recs)) ->
  Forall (fun a => exists s, dict_get a "id" = Some (JStr s)) news ->
  NoDup (id_of <$> (recs ++ news)%list) ->
  run (add_each ROOT_DIR provider (JObj <$> news)) w = Ok tt /\
  run (get_accounts ROOT_DIR provider)
      (exec (add_each ROOT_DIR provider (JObj <$> news)) w) =
    Ok (JArr (JObj <$> (recs ++ news)%list)).
Proof.
  intros Hv. revert recs w.
  induction news as [|a news IH]; intros recs w Hcalm Hl Hids Hnd.
  - rewrite app_nil_r. done.
  - apply Forall_cons in Hids as [[s Hs] Hids].
    pose proof Hl as Hst. apply listed_stored in Hst; [|done|apply Hcalm].
    assert (dict_has a "id" = true) as Hid by (unfold dict_has; by rewrite Hs).
    assert (id_of a = JStr s) as Hida by (unfold id_of; by rewrite Hs).
    assert (py_in (id_of a) (id_of <$> recs) = false) as Hin.
    { rewrite Hida. apply not_true_is_false. rewrite py_in_str. intros Hin.
      rewrite fmap_app, fmap_cons, Hida in Hnd.
      apply NoDup_app in Hnd as (_ & Hnd & _). apply (Hnd _ Hin). left. }
    pose proof (add_account_calm ROOT_DIR provider (JObj a) w Hcalm) as Hcalm1.
    destruct (add_account_quiet ROOT_DIR provider a recs w Hv Hcalm Hid Hst)
      as (w1 & E & Hq1 & Hst1 & _).
    rewrite Hin in E, Hst1.
    assert (exec (add_account ROOT_DIR provider (JObj a)) w = w1) as Hw1
      by (unfold exec; by rewrite E).
    rewrite Hw1 in Hcalm1.
    destruct (IH (recs ++ [a])%list w1) as [Hr Hg]; try done.
    + by rewrite get_accounts_quiet, Hst1.
    + by rewrite <- app_assoc.
    + rewrite fmap_cons. cbn [add_each]. unfold run, exec in *.
      rewrite (bind_ok _ _ _ _ _ E). rewrite <- app_assoc in Hg. done.
Qed.

(** ** The cache directory *)

Lemma cache_path_suffix ROOT_DIR : exists x, get_cache_path ROOT_DIR = x +:+ ".mp".
Proof.
  unfold get_cache_path, os_path_join. cbn [String.prefix].
  destruct (_ || _); [by eexists|].
  exists (ROOT_DIR +:+ "/"). by rewrite string_app_assoc.
Qed.

Lemma join_under x name :
  String.prefix "/" name = false ->
  os_path_join (x +:+ ".mp") name = (x +:+ ".mp") +:+ "/" +:+ name.
Proof.
  intros Hn. unfold os_path_join. rewrite Hn.
  assert (String.eqb (x +:+ ".mp") "" = false) as ->.
  { apply String.eqb_neq. intros E. apply (f_equal String.length) in E.
    rewrite string_length_app in E. cbn in E. lia. }
  assert (ends_with_sep (x +:+ ".mp") = false) as ->; [|done].
  unfold ends_with_sep. rewrite list_ascii_app, rev_app_distr. done.
Qed.

Lemma string_of_list_app l1 l2 :
  String.string_of_list_ascii (l1 ++ l2) =
  String.string_of_list_ascii l1 +:+ String.string_of_list_ascii l2.
Proof.
  induction l1 as [|c l1 IH]; [done|].
  cbn [app String.string_of_list_ascii]. by rewrite string_app_cons, IH.
Qed.

Lemma dirname_under x name :
  forallb (fun c => negb (is_sep c)) (String.list_ascii_of_string name) = true ->
  os_path_dirname ((x +:+ ".mp") +:+ "/" +:+ name) = x +:+ ".mp".
Proof.
  intros Hn. unfold os_path_dirname.
  rewrite !list_ascii_app, !rev_app_distr, <- !app_assoc.
  rewrite drop_while_app_all by (by rewrite forallb_rev).
  cbn [String.list_ascii_of_string rev app drop_while is_sep Ascii.eqb
       Bool.eqb negb forallb andb].
  rewrite rev_involutive, <- !app_assoc. cbn [app].
  by rewrite string_of_list_app, String.string_of_list_ascii_of_string.
Qed.

(** X14.  Where the files of the cache are, for every root directory
    (with or without a separator at its end): the cache directory has the
    name [.mp]; the three documents and the file of results have their
    fixed names directly under it, so that the directory of each of them
    is the cache directory. *)
Theorem cache_files_lie_in_cache_directory ROOT_DIR :
  (exists x, get_cache_path ROOT_DIR = x +:+ ".mp") /\
  get_twitter_cache_path ROOT_DIR = get_cache_path ROOT_DIR +:+ "/twitter.json" /\
  get_youtube_cache_path ROOT_DIR = get_cache_path ROOT_DIR +:+ "/youtube.json" /\
  get_afm_cache_path ROOT_DIR = get_cache_path ROOT_DIR +:+ "/afm.json" /\
  get_results_cache_path ROOT_DIR =
    get_cache_path ROOT_DIR +:+ "/scraper_results.csv" /\
  Forall (fun p => os_path_dirname p = get_cache_path ROOT_DIR)
    [get_twitter_cache_path ROOT_DIR; get_youtube_cache_path ROOT_DIR;
     get_afm_cache_path ROOT_DIR; get_results_cache_path ROOT_DIR].
Proof.
  destruct (cache_path_suffix ROOT_DIR) as [x Hx].
  unfold get_twitter_cache_path, get_youtube_cache_path, get_afm_cache_path,
    get_results_cache_path.
  rewrite Hx, !join_under by done.
  split; [by exists x|]. repeat (split; [done|]).
  repeat constructor; by apply dirname_under.
Qed.

Lemma stored_nonempty_is_Some c field (r : pydict) recs :
  stored c field = JArr (JObj <$> (recs ++ [r])%list) -> is_Some c.
Proof.
  destruct c as [c|]; [by eexists|]. unfold stored. cbn [doc_dict dict_get].
  rewrite String.eqb_refl. cbn [default id]. intros [= E].
  apply (f_equal length) in E. rewrite length_fmap, length_app in E.
  cbn in E. lia.
Qed.

(** X15.  The second insertion of a record is rejected.  In a calm world
    where [get_accounts] lists [recs], none with the id [s]: a record with
    the id [s] is added, [add_account] returning [True]; the same call
    made again returns [False] and writes no file; the list is [recs]
    followed by the record, once. *)
Theorem second_insert_is_rejected ROOT_DIR provider acct s recs w :
  is_account_provider provider = true ->
  calm w (account_cache_path ROOT_DIR provider) ->
  run (get_accounts ROOT_DIR provider) w = Ok (JArr (JObj <$> recs)) ->
  dict_get acct "id" = Some (JStr s) ->
  JStr s ∉ id_of <$> recs ->
  run (add_account ROOT_DIR provider (JObj acct)) w = Ok true /\
  run (add_account ROOT_DIR provider (JObj acct))
      (exec (add_account ROOT_DIR provider (JObj acct)) w) = Ok false /\
  files (exec (add_account ROOT_DIR provider (JObj acct))
          (exec (add_account ROOT_DIR provider (JObj acct)) w)) =
    files (exec (add_account ROOT_DIR provider (JObj acct)) w) /\
  run (get_accounts ROOT_DIR provider)
      (exec (add_account ROOT_DIR provider (JObj acct))
         (exec (add_account ROOT_DIR provider (JObj acct)) w)) =
    Ok (JArr (JObj <$> (recs ++ [acct])%list)).
Proof.
  intros Hv Hcalm Hl Hs Hnew.
  apply listed_stored in Hl; [|done|apply Hcalm].
  assert (dict_has acct "id" = true) as Hid by (unfold dict_has; by rewrite Hs).
  assert (id_of acct = JStr s) as Hids by (unfold id_of; by rewrite Hs).
  assert (py_in (id_of acct) (id_of <$> recs) = false) as Hin.
  { rewrite Hids. apply not_true_is_false. by rewrite py_in_str. }
  pose proof (add_account_calm ROOT_DIR provider (JObj acct) w Hcalm) as Hcalm1.
  destruct (add_account_quiet ROOT_DIR provider acct recs w Hv Hcalm Hid Hl)
    as (w1 & E & Hq1 & Hst1 & _).
  rewrite Hin in E, Hst1.
  assert (exec (add_account ROOT_DIR provider (JObj acct)) w = w1) as Hw1
    by (unfold exec; by rewrite E).
  rewrite Hw1 in *.
  destruct (add_account_quiet ROOT_DIR provider acct (recs ++ [acct]) w1
              Hv Hcalm1 Hid Hst1) as (w2 & E2 & Hq2 & Hst2 & Hf2).
  assert (py_in (id_of acct) (id_of <$> (recs ++ [acct])%list) = true) as Hin2.
  { rewrite Hids. apply py_in_str. rewrite fmap_app, fmap_cons, Hids.
    apply elem_of_app. right. left. }
  rewrite Hin2 in E2, Hst2, Hf2.
  assert (exec (add_account ROOT_DIR provider (JObj acct)) w1 = w2) as Hw2
    by (unfold exec; by rewrite E2).
  rewrite Hw2.
  split; [unfold run; by rewrite E|]. split; [unfold run; by rewrite E2|].
  split; [|by rewrite get_accounts_quiet, Hst2].
  apply Hf2; [done|]. by eapply stored_nonempty_is_Some.
Qed.

Lemma document_dirname ROOT_DIR p :
  p ∈ documents ROOT_DIR -> os_path_dirname p = get_cache_path ROOT_DIR.
Proof.
  destruct (cache_path_suffix ROOT_DIR) as [x Hx].
  unfold documents, get_twitter_cache_path, get_youtube_cache_path,
    get_afm_cache_path.
  rewrite Hx, !join_under by done.
  intros Hp. repeat (apply elem_of_cons in Hp as [->|Hp]);
    [| | |by apply elem_of_nil in Hp]; by apply dirname_under.
Qed.

Lemma settles_same_directory p q w w' :
  os_path_dirname p = os_path_dirname q -> settles p w w' -> settles q w w'.
Proof. unfold settles. by intros ->. Qed.

Lemma twitter_document ROOT_DIR : get_twitter_cache_path ROOT_DIR ∈ documents ROOT_DIR.
Proof. solve_mem. Qed.

Lemma youtube_document ROOT_DIR : get_youtube_cache_path ROOT_DIR ∈ documents ROOT_DIR.
Proof. solve_mem. Qed.

(** An operation on one collection leaves what the other one lists and
    keeps it calm. *)
Lemma other_collection_kept ROOT_DIR p q w w' :
  p ∈ documents ROOT_DIR -> q ∈ documents ROOT_DIR -> q <> p ->
  only_touches (footprint p) w w' -> settles p w w' ->
  files w' !! q = files w !! q /\ (calm w q -> calm w' q).
Proof.
  intros Hp Hq Hne [Hf _] Hs. split.
  - apply Hf. by apply (documents_apart ROOT_DIR).
  - apply calm_settles; [by apply (document_proper ROOT_DIR)|].
    apply (settles_same_directory p); [|done].
    by rewrite !(document_dirname ROOT_DIR).
Qed.

(** X16.  The two collections of accounts do not share their ids.  In a
    world that is calm for both, a record with an id that neither
    collection lists is added to the twitter accounts and then to the
    youtube accounts; both insertions return [True], and each collection
    then lists its former records followed by the record. *)
Theorem collections_are_independent ROOT_DIR acct s recs_t recs_y w :
  calm w (get_twitter_cache_path ROOT_DIR) ->
  calm w (get_youtube_cache_path ROOT_DIR) ->
  run (get_accounts ROOT_DIR "twitter") w = Ok (JArr (JObj <$> recs_t)) ->
  run (get_accounts ROOT_DIR "youtube") w = Ok (JArr (JObj <$> recs_y)) ->
  dict_get acct "id" = Some (JStr s) ->
  JStr s ∉ id_of <$> recs_t ->
  JStr s ∉ id_of <$> recs_y ->
  run (add_account ROOT_DIR "twitter" (JObj acct)) w = Ok true /\
  run (add_account ROOT_DIR "youtube" (JObj acct))
      (exec (add_account ROOT_DIR "twitter" (JObj acct)) w) = Ok true /\
  run (get_accounts ROOT_DIR "twitter")
      (exec (add_account ROOT_DIR "youtube" (JObj acct))
         (exec (add_account ROOT_DIR "twitter" (JObj acct)) w)) =
    Ok (JArr (JObj <$> (recs_t ++ [acct])%list)) /\
  run (get_accounts ROOT_DIR "youtube")
      (exec (add_account ROOT_DIR "youtube" (JObj acct))
         (exec (add_account ROOT_DIR "twitter" (JObj acct)) w)) =
    Ok (JArr (JObj <$> (recs_y ++ [acct])%list)).
Proof.
  intros Hct Hcy Hlt Hly Hs Hnt Hny.
  destruct (documents_distinct ROOT_DIR) as (Hty & _ & _).
  apply (listed_stored ROOT_DIR "twitter") in Hlt; [|done|apply Hct].
  apply (listed_stored ROOT_DIR "youtube") in Hly; [|done|apply Hct].
  assert (dict_has acct "id" = true) as Hid by (unfold dict_has; by rewrite Hs).
  assert (id_of acct = JStr s) as Hids by (unfold id_of; by rewrite Hs).
  assert (forall recs, JStr s ∉ id_of <$> recs ->
            py_in (id_of acct) (id_of <$> recs) = false) as Hin.
  { intros recs Hn. rewrite Hids. apply not_true_is_false. by rewrite py_in_str. }
  pose proof (add_account_touches ROOT_DIR "twitter" (JObj acct) w) as Ht1.
  pose proof (add_account_settles ROOT_DIR "twitter" (JObj acct) w) as Hs1.
  destruct (add_account_quiet ROOT_DIR "twitter" acct recs_t w eq_refl Hct Hid Hlt)
    as (w1 & E1 & Hq1 & Hst1 & _).
  rewrite (Hin _ Hnt) in E1, Hst1.
  assert (exec (add_account ROOT_DIR "twitter" (JObj acct)) w = w1) as Hw1
    by (unfold exec; by rewrite E1).
  rewrite Hw1 in *.
  destruct (other_collection_kept ROOT_DIR (get_twitter_cache_path ROOT_DIR)
              (get_youtube_cache_path ROOT_DIR) w w1) as [Hfy Hcy1];
    auto using twitter_document, youtube_document.
  assert (stored (files w1 !! account_cache_path ROOT_DIR "youtube") "accounts" =
          JArr (JObj <$> recs_y)) as Hly1.
  { change (account_cache_path ROOT_DIR "youtube")
      with (get_youtube_cache_path ROOT_DIR) in *. by rewrite Hfy. }
  pose proof (add_account_touches ROOT_DIR "youtube" (JObj acct) w1) as Ht2.
  pose proof (add_account_settles ROOT_DIR "youtube" (JObj acct) w1) as Hs2.
  destruct (add_account_quiet ROOT_DIR "youtube" acct recs_y w1 eq_refl
              (Hcy1 Hcy) Hid Hly1) as (w2 & E2 & Hq2 & Hst2 & _).
  rewrite (Hin _ Hny) in E2, Hst2.
  assert (exec (add_account ROOT_DIR "youtube" (JObj acct)) w1 = w2) as Hw2
    by (unfold exec; by rewrite E2).
  rewrite Hw2 in *.
  destruct (other_collection_kept ROOT_DIR (get_youtube_cache_path ROOT_DIR)
              (get_twitter_cache_path ROOT_DIR) w1 w2) as [Hft _];
    auto using twitter_document, youtube_document.
  split; [unfold run; by rewrite E1|]. split; [unfold run; by rewrite E2|].
  rewrite !get_accounts_quiet by done. split; [|by rewrite <- Hst2].
  change (account_cache_path ROOT_DIR "twitter")
    with (get_twitter_cache_path ROOT_DIR) in *. by rewrite Hft, <- Hst1.
Qed.

(** X17.  The operations change the array of accounts only: in a calm
    world whose document is an object with a list of records under
    [accounts], after [add_account], [remove_account] or [update_account]
    the document is an object again, with the former value under every
    other key. *)
Theorem other_keys_are_kept
    ROOT_DIR provider acct account_id updates d recs w :
  is_account_provider provider = true ->
  calm w (account_cache_path ROOT_DIR provider) ->
  files w !! account_cache_path ROOT_DIR provider = Some (Doc (JObj d)) ->
  dict_get d "accounts" = Some (JArr (JObj <$> recs)) ->
  dict_has acct "id" = true ->
  Forall (fun w' =>
    exists d',
      files w' !! account_cache_path ROOT_DIR provider = Some (Doc (JObj d')) /\
      forall k, k <> "accounts" -> dict_get d' k = dict_get d k)
    [exec (add_account ROOT_DIR provider (JObj acct)) w;
     exec (remove_account ROOT_DIR provider account_id) w;
     exec (update_account ROOT_DIR provider account_id updates) w].
Proof.
  intros Hv Hcalm Hc Hd Hid.
  set (path := account_cache_path ROOT_DIR provider) in *.
  destruct (read_field_quiet ROOT_DIR path "accounts" w
              (account_path_document ROOT_DIR provider) (proj1 Hcalm))
    as (w1 & E & Hq1 & _ & Hf1 & Hc1).
  rewrite Hc in E. cbn [doc_dict] in E.
  specialize (Hf1 (ltac:(by eexists))). specialize (Hc1 Hcalm).
  assert (forall v, exists w2,
            _write_cache_file path (dict_set d "accounts" v) w1 = (Ok true, w2) /\
            exists d', files w2 !! path = Some (Doc (JObj d')) /\
              forall k, k <> "accounts" -> dict_get d' k = dict_get d k) as Hwrite.
  { intros v. destruct (write_quiet path (dict_set d "accounts" v) w1 Hc1)
      as (w2 & E2 & _ & Hf2 & _).
    exists w2. split; [done|]. eexists. rewrite Hf2, lookup_insert_eq.
    split; [done|]. intros k Hk. by apply dict_get_set_ne. }
  assert (exists d', files w1 !! path = Some (Doc (JObj d')) /\
            forall k, k <> "accounts" -> dict_get d' k = dict_get d k) as Hsame.
  { exists d. by rewrite Hf1. }
  repeat constructor.
  - unfold add_account, exec. rewrite Hv, Hid. cbn [negb]. fold path.
    rewrite (bind_ok _ _ _ _ _ E), Hd. cbn [default id py_iter lift]. mred.
    rewrite comprehension_ids. mred.
    destruct (py_in _ _); mred; [done|]. cbn [py_append].
    destruct (Hwrite (JArr ((JObj <$> recs) ++ [JObj acct]))) as (w2 & -> & H).
    done.
  - unfold remove_account, exec. rewrite Hv. cbn [negb]. fold path.
    rewrite (bind_ok _ _ _ _ _ E), Hd. cbn [default id py_len py_iter lift]. mred.
    rewrite comprehension_if_ids. mred.
    destruct (Nat.eqb _ _); mred; [done|].
    destruct (Hwrite (JArr (JObj <$>
      List.filter (fun r => negb (has_id account_id r)) recs))) as (w2 & -> & H).
    done.
  - unfold update_account, exec. rewrite Hv. cbn [negb]. fold path.
    rewrite (bind_ok _ _ _ _ _ E), Hd. cbn [default id py_iter lift]. mred.
    rewrite update_loop_records. mred.
    destruct (existsb _ _); cbn [negb]; mred; [|done].
    destruct (Hwrite (JArr (JObj <$>
      patch_first (has_id account_id) updates recs))) as (w2 & -> & H).
    done.
Qed.

(** X18.  What insertion asks of the record, and when it returns.  A
    record without an [id] key, or that is no dictionary, makes
    [add_account] and [add_product] raise [ValueError] in every world,
    before any file is looked at.  A dictionary with an [id] (empty or
    not), offered to a recognised collection whose document is missing,
    does not parse or holds a collection, makes them return a boolean,
    under every schedule of faults when the document exists already, and
    in a world without faults when it has to be created. *)
Theorem insert_requires_id ROOT_DIR provider record w :
  (record_has_id record = false ->
     add_account ROOT_DIR provider record w = (Raise ValueError, w) /\
     add_product ROOT_DIR record w = (Raise ValueError, w)) /\
  (record_has_id record = true ->
     (is_account_provider provider = true ->
      holds_collection (files w !! account_cache_path ROOT_DIR provider) "accounts" = true ->
      exists_at w (account_cache_path ROOT_DIR provider) = true \/ faults w = [] ->
      exists b, run (add_account ROOT_DIR provider record) w = Ok b) /\
     (holds_collection (files w !! get_afm_cache_path ROOT_DIR) "products" = true ->
      exists_at w (get_afm_cache_path ROOT_DIR) = true \/ faults w = [] ->
      exists b, run (add_product ROOT_DIR record) w = Ok b)).
Proof.
  split.
  - intros Hid. unfold add_account, add_product.
    destruct (is_account_provider provider); cbn [negb];
      destruct record; cbn [record_has_id] in Hid; try done;
      by rewrite Hid.
  - intros Hid. destruct record; try discriminate. cbn [record_has_id] in Hid.
    split; intros; [by apply add_account_returns|by apply add_product_returns].
Qed.

(** ** The further properties at sample values *)

Lemma add_product_appends_or_rejects_witness :
  run (add_product sample_root (JObj rec_c)) world_one = Ok true /\
  run (get_products sample_root)
      (exec (add_product sample_root (JObj rec_c)) world_one) =
    Ok (JArr [JObj rec_c]).
Proof.
  destruct (add_product_appends_or_rejects sample_root rec_c [] world_one)
    as (H1 & H2 & _).
  - repeat split.
  - reflexivity.
  - vm_compute. reflexivity.
  - split; [exact H1|exact H2].
Defined.

Lemma get_accounts_creates_document_witness :
  run (get_accounts sample_root "twitter") world_empty = Ok (JArr []) /\
  exists_at (exec (get_accounts sample_root "twitter") world_empty)
    (os_path_dirname (account_cache_path sample_root "twitter")) = true.
Proof.
  destruct (get_accounts_creates_document sample_root "twitter" world_empty)
    as (H1 & _ & H3).
  - reflexivity.
  - reflexivity.
  - vm_compute. reflexivity.
  - split; [exact H1|exact H3].
Defined.

Lemma get_accounts_idempotent_witness :
  run (get_accounts sample_root "twitter")
      (exec (get_accounts sample_root "twitter") world_empty) =
    run (get_accounts sample_root "twitter") world_empty.
Proof.
  apply (get_accounts_idempotent sample_root "twitter" world_empty); reflexivity.
Defined.

Lemma listing_is_read_only_witness :
  (exists v, run (get_accounts sample_root "twitter") world_wrong_type = Ok v) /\
  files (exec (get_accounts sample_root "twitter") world_wrong_type) =
    files world_wrong_type.
Proof.
  destruct (listing_is_read_only sample_root "twitter" world_wrong_type) as [H _].
  destruct H as (H1 & H2 & _).
  - reflexivity.
  - vm_compute. reflexivity.
  - split; [exact H1|exact H2].
Defined.

Lemma get_accounts_empty_on_bad_document_witness :
  run (get_accounts sample_root "twitter") world_corrupt = Ok (JArr []).
Proof.
  apply (get_accounts_empty_on_bad_document sample_root "twitter"
           (Garbage "{oops") world_corrupt).
  - reflexivity.
  - vm_compute. reflexivity.
  - left. reflexivity.
Defined.

Lemma missing_document_creation_raises_witness :
  run (get_accounts sample_root "twitter") world_creation_fault = Raise OSError /\
  run (add_account sample_root "twitter" (JObj rec_a)) world_creation_fault =
    Raise OSError.
Proof.
  destruct (missing_document_creation_raises sample_root "twitter" rec_a "a" []
              world_creation_fault [])
    as ((H1 & _) & (H2 & _) & _).
  - reflexivity.
  - reflexivity.
  - vm_compute. reflexivity.
  - reflexivity.
  - split; [exact H1|exact H2].
Defined.

Lemma write_leaves_old_new_or_nothing_witness :
  exists b,
    run (_write_cache_file sample_twitter [("accounts", JArr [])]) world_read_fault =
      Ok b.
Proof.
  destruct (write_leaves_old_new_or_nothing sample_twitter
              [("accounts", JArr [])] world_read_fault) as (b & H & _).
  exists b. exact H.
Defined.

Lemma clear_cache_true_means_deleted_witness :
  exists b, run (clear_cache sample_root (Some "twitter")) world_one = Ok b.
Proof.
  destruct (clear_cache_true_means_deleted sample_root (Some "twitter") world_one)
    as (b & H & _).
  exists b. exact H.
Defined.

Lemma clear_cache_stops_at_failure_witness :
  run (clear_cache sample_root None) world_read_fault = Ok false /\
  files (exec (clear_cache sample_root None) world_read_fault) =
    files world_read_fault.
Proof.
  apply (clear_cache_stops_at_failure sample_root
           (Doc (JObj [("accounts", JArr [JObj rec_a])])) world_read_fault []).
  - vm_compute. reflexivity.
  - reflexivity.
Defined.

Lemma clear_then_list_witness :
  run (clear_cache sample_root (Some "twitter")) world_two = Ok true /\
  run (get_accounts sample_root "twitter")
      (exec (clear_cache sample_root (Some "twitter")) world_two) = Ok (JArr []).
Proof.
  destruct (clear_then_list sample_root "twitter" world_two) as (H1 & _ & H3 & _).
  - reflexivity.
  - repeat split.
  - split; [exact H1|exact H3].
Defined.

Lemma failed_read_is_taken_for_empty_witness :
  run (add_account sample_root "twitter" (JObj rec_b)) world_read_fault = Ok true /\
  files (exec (add_account sample_root "twitter" (JObj rec_b)) world_read_fault)
    !! account_cache_path sample_root "twitter" =
    Some (Doc (JObj [("accounts", JArr [JObj rec_b])])).
Proof.
  destruct (failed_read_is_taken_for_empty sample_root "twitter" rec_b "a"
              (Doc (JObj [("accounts", JArr [JObj rec_a])])) world_read_fault)
    as (H & _).
  - reflexivity.
  - reflexivity.
  - vm_compute. reflexivity.
  - reflexivity.
  - reflexivity.
  - reflexivity.
  - exact H.
Defined.

Lemma sample_absent_c : JStr "c" ∉ id_of <$> [rec_a].
Proof.
  intros H. apply elem_of_cons in H as [H|H]; [discriminate H|].
  by apply elem_of_nil in H.
Defined.

Lemma remove_undoes_add_witness :
  run (get_accounts sample_root "twitter")
      (exec (remove_account sample_root "twitter" "c")
         (exec (add_account sample_root "twitter" (JObj rec_c)) world_one)) =
    Ok (JArr [JObj rec_a]).
Proof.
  destruct (remove_undoes_add sample_root "twitter" rec_c "c" [rec_a] world_one)
    as (_ & _ & H).
  - reflexivity.
  - repeat split.
  - vm_compute. reflexivity.
  - reflexivity.
  - exact sample_absent_c.
  - exact H.
Defined.

Lemma added_accounts_persist_witness :
  run (get_accounts sample_root "twitter")
      (exec (add_each sample_root "twitter" [JObj rec_b; JObj rec_c]) world_one) =
    Ok (JArr [JObj rec_a; JObj rec_b; JObj rec_c]).
Proof.
  destruct (added_accounts_persist sample_root "twitter" [rec_b; rec_c] [rec_a]
              world_one) as (_ & H).
  - reflexivity.
  - repeat split.
  - vm_compute. reflexivity.
  - repeat constructor; eexists; reflexivity.
  - repeat (apply NoDup_cons; split);
      [| |intros H; by apply elem_of_nil in H|apply NoDup_nil; exact I];
      intros H; repeat (apply elem_of_cons in H as [H|H]; [discriminate H|]);
      by apply elem_of_nil in H.
  - exact H.
Defined.

Lemma second_insert_is_rejected_witness :
  run (add_account sample_root "twitter" (JObj rec_c))
      (exec (add_account sample_root "twitter" (JObj rec_c)) world_one) = Ok false.
Proof.
  destruct (second_insert_is_rejected sample_root "twitter" rec_c "c" [rec_a]
              world_one) as (_ & H & _).
  - reflexivity.
  - repeat split.
  - vm_compute. reflexivity.
  - reflexivity.
  - exact sample_absent_c.
  - exact H.
Defined.

Lemma collections_are_independent_witness :
  run (get_accounts sample_root "youtube")
      (exec (add_account sample_root "youtube" (JObj rec_c))
         (exec (add_account sample_root "twitter" (JObj rec_c)) world_one)) =
    Ok (JArr [JObj rec_b; JObj rec_c]).
Proof.
  destruct (collections_are_independent sample_root rec_c "c" [rec_a] [rec_b]
              world_one) as (_ & _ & _ & H).
  - repeat split.
  - repeat split.
  - vm_compute. reflexivity.
  - vm_compute. reflexivity.
  - reflexivity.
  - exact sample_absent_c.
  - intros H. apply elem_of_cons in H as [H|H]; [discriminate H|].
    by apply elem_of_nil in H.
  - exact H.
Defined.

Lemma other_keys_are_kept_witness :
  exists d',
    files (exec (add_account sample_root "twitter" (JObj rec_b)) world_versioned)
      !! account_cache_path sample_root "twitter" = Some (Doc (JObj d')) /\
    dict_get d' "version" = Some (JNum 2).
Proof.
  pose proof (other_keys_are_kept sample_root "twitter" rec_b "a" []
                [("version", JNum 2); ("accounts", JArr [JObj rec_a])] [rec_a]
                world_versioned) as H.
  apply Forall_cons in H as [(d' & H1 & H2) _].
  - exists d'. split; [exact H1|]. apply (H2 "version"). discriminate.
  - reflexivity.
  - repeat split.
  - vm_compute. reflexivity.
  - reflexivity.
  - reflexivity.
Defined.

Lemma insert_requires_id_witness :
  add_account sample_root "twitter" (JObj [("nickname", JStr "No ID")]) world_one =
    (Raise ValueError, world_one) /\
  exists b, run (add_account sample_root "twitter" (JObj rec_b)) world_one = Ok b.
Proof.
  split.
  - destruct (insert_requires_id sample_root "twitter"
                (JObj [("nickname", JStr "No ID")]) world_one) as [H _].
    apply H. reflexivity.
  - destruct (insert_requires_id sample_root "twitter" (JObj rec_b) world_one)
      as [_ H].
    destruct (H eq_refl) as [Hacc _]. apply Hacc.
    + reflexivity.
    + vm_compute. reflexivity.
    + right. reflexivity.
Defined.
